(** * The TwinFresh / Siku fan protocol client (api_v2.py), embedded in Rocq

    The development follows [custom_components/twinfresh/api_v2.py]:
    the checksum unit, the packet builder, the response field parser, the
    state translator and the command facade of class [SikuV2Api].

    Python values are modelled as follows.
    - A hex string, a token of a hex list, a command code: [string]
      (ASCII text).
    - The credentials [idnum] and [password]: lists of Unicode code points
      ([pystr]), because [len(password)] counts code points while
      [password.encode("utf-8")] counts bytes.
    - [bytes]: [list byte].
    - Python integers (all non-negative here): [N]; list indices: [nat].
    - The response dictionary [data]: [gmap string string].
    - Exceptions: the error monad [result], with the exception class in
      [exn].
    - The UDP socket: an explicit [world] threaded by the monad [IO]. *)

From Stdlib Require Import NArith Ascii String List Lia.
From Stdlib.Strings Require Import Byte.
From stdpp Require Import base strings list gmap.

(** ** Exceptions and the error monad *)

Inductive exn : Type :=
| IndexError                    (* list index out of range *)
| KeyError (key : string)
| ValueError (msg : string)     (* int(), bytes.fromhex and the explicit raises *)
| UnicodeEncodeError            (* str.encode on a lone surrogate *)
| Exception_ (msg : string)     (* raise Exception(msg) *)
| socket_error                  (* socket.timeout and other OSError of recvfrom *)
| OverflowError                 (* sendto: the port is outside 0-65535 *)
| gaierror                      (* socket.gaierror of sendto: the host does not resolve *)
| OSError (msg : string)        (* OSError of sendto: message too long, network unreachable *)
| OutOfFuel.                    (* artefact of the loop model; see [parse_response_total] *)

Inductive result (A : Type) : Type :=
| Ok (a : A)
| Err (e : exn).
Arguments Ok {A} a.
Arguments Err {A} e.

#[export] Instance result_ret : MRet result := fun _ a => Ok a.
#[export] Instance result_bind : MBind result := fun _ _ f r =>
  match r with
  | Ok a => f a
  | Err e => Err e
  end.

#[export] Instance result_fmap : FMap result := fun _ _ f r =>
  match r with
  | Ok a => Ok (f a)
  | Err e => Err e
  end.

(** ** Python primitives used by the module *)

Module Py.

(** A Python [str] holding arbitrary text: its code points. *)
Definition pystr : Type := list N.

(** The code points of an ASCII literal. *)
Definition of_ascii_string (s : string) : pystr :=
  map N_of_ascii (list_ascii_of_string s).

Definition byte_of_N (n : N) : byte :=
  match Byte.of_N n with
  | Some b => b
  | None => x00
  end.

(** [c.encode("utf-8")] for one code point. Surrogates U+D800..U+DFFF raise
    UnicodeEncodeError; values from 0x110000 on are not characters of a
    Python str and are rejected the same way. *)
Definition utf8_char (c : N) : result (list byte) :=
  if (c <? 0x80)%N then Ok [byte_of_N c]
  else if (c <? 0x800)%N then
    Ok [byte_of_N (0xC0 + c / 64); byte_of_N (0x80 + c mod 64)]
  else if (0xD800 <=? c)%N && (c <=? 0xDFFF)%N then Err UnicodeEncodeError
  else if (c <? 0x10000)%N then
    Ok [byte_of_N (0xE0 + c / 4096); byte_of_N (0x80 + (c / 64) mod 64);
        byte_of_N (0x80 + c mod 64)]
  else if (c <? 0x110000)%N then
    Ok [byte_of_N (0xF0 + c / 262144); byte_of_N (0x80 + (c / 4096) mod 64);
        byte_of_N (0x80 + (c / 64) mod 64); byte_of_N (0x80 + c mod 64)]
  else Err UnicodeEncodeError.

(** [s.encode("utf-8")] *)
Fixpoint encode_utf8 (s : pystr) : result (list byte) :=
  match s with
  | [] => Ok []
  | c :: s' =>
      bs ← utf8_char c;
      rest ← encode_utf8 s';
      mret (bs ++ rest)%list
  end.

(** One hexadecimal digit, lower case (bytes.hex, format x) or upper case
    (format X). *)
Definition hexdigit (up : bool) (d : N) : ascii :=
  if (d <? 10)%N then ascii_of_N (48 + d)
  else ascii_of_N ((if up then 55 else 87) + d).

(** [bytes([b]).hex()] *)
Definition hex_of_byte (b : byte) : string :=
  String (hexdigit false (Byte.to_N b / 16))
    (String (hexdigit false (Byte.to_N b mod 16)) EmptyString).

(** [bs.hex()] *)
Fixpoint hex (bs : list byte) : string :=
  match bs with
  | [] => EmptyString
  | b :: bs' => hex_of_byte b +:+ hex bs'
  end.

(** [s.upper()] on ASCII text: a..z become A..Z. *)
Definition upper_char (c : ascii) : ascii :=
  let n := N_of_ascii c in
  if (97 <=? n)%N && (n <=? 122)%N then ascii_of_N (n - 32) else c.

Fixpoint upper (s : string) : string :=
  match s with
  | EmptyString => EmptyString
  | String c s' => String (upper_char c) (upper s')
  end.

(** The value of a hexadecimal digit, either case. *)
Definition hexval (c : ascii) : option N :=
  let n := N_of_ascii c in
  if (48 <=? n)%N && (n <=? 57)%N then Some (n - 48)%N
  else if (65 <=? n)%N && (n <=? 70)%N then Some (n - 55)%N
  else if (97 <=? n)%N && (n <=? 102)%N then Some (n - 87)%N
  else None.

Fixpoint int16_digits (s : string) (acc : N) : option N :=
  match s with
  | EmptyString => Some acc
  | String c s' =>
      match hexval c with
      | Some d => int16_digits s' (16 * acc + d)
      | None => None
      end
  end.

(** [int(s, 16)] on a string of hexadecimal digits; the empty string and any
    other character raise ValueError. (Python also accepts a sign,
    surrounding white space, a 0x prefix and single underscores between
    digits; the tokens of this protocol are pairs of hexadecimal digits cut
    from [bytes.hex()], and these forms are not modelled.) *)
Definition int16 (s : string) : result N :=
  match s with
  | EmptyString => Err (ValueError "invalid literal for int() with base 16")
  | _ =>
      match int16_digits s 0 with
      | Some n => Ok n
      | None => Err (ValueError "invalid literal for int() with base 16")
      end
  end.

(** The digits of [n] in [base], most significant first, without padding;
    [fuel] bounds the number of digits. *)
Fixpoint digits (base : N) (up : bool) (fuel : nat) (n : N) (acc : string)
  : string :=
  match fuel with
  | O => acc
  | S fuel' =>
      let acc' := String (hexdigit up (n mod base)) acc in
      if (n / base =? 0)%N then acc' else digits base up fuel' (n / base) acc'
  end.

Definition to_base (base : N) (up : bool) (n : N) : string :=
  digits base up (S (N.size_nat n)) n EmptyString.

Fixpoint zeros (k : nat) : string :=
  match k with
  | O => EmptyString
  | S k' => String "0" (zeros k')
  end.

(** Zero padding on the left up to width [w] (format spec 0w of an int). *)
Definition zfill (w : nat) (s : string) : string :=
  zeros (w - String.length s) +:+ s.

(** [f"{n:02x}"], [f"{n:04X}"] and [f"{n:02}"] for a non-negative int. *)
Definition format_02x (n : N) : string := zfill 2 (to_base 16 false n).
Definition format_04X (n : N) : string := zfill 4 (to_base 16 true n).
Definition format_02 (n : N) : string := zfill 2 (to_base 10 false n).

(** [f"{s:02}"] for a str [s] (Python 3.10 and later): left aligned, filled
    with 0 up to width 2. *)
Definition format_str_02 (s : string) : string :=
  s +:+ zeros (2 - String.length s).

(** The slice [s[a:b]] of a string, for 0 <= a <= b. *)
Definition slice_str (a b : nat) (s : string) : string :=
  substring a (b - a) s.

(** [l[i]] for a non-negative index. *)
Definition index {A} (l : list A) (i : nat) : result A :=
  match l !! i with
  | Some x => Ok x
  | None => Err IndexError
  end.

(** [l[a:b]] for 0 <= a; the slice is cut at the end of the list. *)
Definition slice {A} (a b : nat) (l : list A) : list A :=
  take (b - a) (drop a l).

(** [str.join] with the empty separator *)
Fixpoint join (l : list string) : string :=
  match l with
  | [] => EmptyString
  | s :: l' => s +:+ join l'
  end.

Definition is_space (c : ascii) : bool :=
  let n := N_of_ascii c in
  (n =? 32)%N || ((9 <=? n)%N && (n <=? 13)%N).

(** [bytes.fromhex(s)]: white space is skipped before each byte, every byte
    is two hexadecimal digits, anything else raises ValueError. *)
Fixpoint fromhex (s : string) : result (list byte) :=
  match s with
  | EmptyString => Ok []
  | String c s' =>
      if is_space c then fromhex s'
      else
        match s' with
        | EmptyString => Err (ValueError "non-hexadecimal number found in fromhex() arg")
        | String d s'' =>
            match hexval c, hexval d with
            | Some h, Some l =>
                rest ← fromhex s'';
                mret (byte_of_N (16 * h + l) :: rest)
            | _, _ =>
                Err (ValueError "non-hexadecimal number found in fromhex() arg")
            end
        end
  end.

(** The comprehension over [zip] of one iterator of [s] taken twice
    (line 206): the characters of [s] two by two; a last single character is
    dropped. *)
Fixpoint pairs (s : string) : list string :=
  match s with
  | String a (String b s') => String a (String b EmptyString) :: pairs s'
  | _ => []
  end.

(** [[s[i:i+2] for i in range(0, len(s), 2)]]: the characters of [s] two by
    two; a last single character makes a chunk of its own. *)
Fixpoint chunks2 (s : string) : list string :=
  match s with
  | EmptyString => []
  | String a EmptyString => [String a EmptyString]
  | String a (String b s') => String a (String b EmptyString) :: chunks2 s'
  end.

(** [l[-k]] for k >= 1. *)
Definition index_from_end {A} (l : list A) (k : nat) : result A :=
  if decide (k ≤ length l)%nat then index l (length l - k) else Err IndexError.

(** [d[k]] on a dict *)
Definition getitem (d : gmap string string) (k : string) : result string :=
  match d !! k with
  | Some v => Ok v
  | None => Err (KeyError k)
  end.

(** A dict whose iteration order matters, as the list of its items (distinct
    keys, insertion order). *)
Definition odict : Type := list (string * string).

Definition keys (d : odict) : list string := map fst d.
Definition values (d : odict) : list string := map snd d.

Fixpoint odict_getitem (d : odict) (k : string) : result string :=
  match d with
  | [] => Err (KeyError k)
  | (k', v) :: d' => if decide (k' = k) then Ok v else odict_getitem d' k
  end.

(** [l.index(x)]: position of the first occurrence. *)
Fixpoint list_index (l : list string) (x : string) : result nat :=
  match l with
  | [] => Err (ValueError "is not in list")
  | y :: l' => if decide (y = x) then Ok O else S <$> list_index l' x
  end.

(** [try: body / except KeyError: handler] *)
Definition try_except_KeyError {A} (body : result A) (handler : result A)
  : result A :=
  match body with
  | Err (KeyError _) => handler
  | r => r
  end.

End Py.

(** ** The UDP socket *)

(** What the network holds for one client: the outcomes of the socket calls
    to come, and the datagrams sent so far with their destination, latest
    first. An entry [Ok d] is a datagram that the next [recvfrom] yields. An
    entry [Err e] is a socket call that raises [e]: the next [sendto] when
    [e] is one of its exceptions ([sendto_raises]: the port is out of range,
    the host does not resolve, the datagram is too long to be sent), the next
    [recvfrom] otherwise (a time-out or another socket failure). With an
    empty queue the datagram leaves and nothing comes back: [recvfrom] times
    out. *)
Record world : Type := World {
  inbox : list (result (list byte));
  sent : list (string * N * list byte)
}.

Definition IO (A : Type) : Type := world -> result A * world.

#[export] Instance IO_ret : MRet IO := fun _ a w => (Ok a, w).
#[export] Instance IO_bind : MBind IO := fun _ _ f m w =>
  match m w with
  | (Ok a, w') => f a w'
  | (Err e, w') => (Err e, w')
  end.

(** A pure, possibly raising computation inside [IO]. *)
Definition lift {A} (r : result A) : IO A := fun w => (r, w).

(** The exceptions of [s.sendto]. *)
Definition sendto_raises (e : exn) : bool :=
  match e with
  | OverflowError | gaierror | OSError _ => true
  | _ => false
  end.

(** [s.sendto(data, address)]: either it raises and nothing is sent, or the
    datagram leaves. *)
Definition sendto (data : list byte) (address : string * N) : IO unit :=
  fun w =>
    match inbox w with
    | Err e :: rest =>
        if sendto_raises e then (Err e, World rest (sent w))
        else (Ok tt, World (inbox w) ((address, data) :: sent w))
    | _ => (Ok tt, World (inbox w) ((address, data) :: sent w))
    end.

(** [s.recvfrom(bufsize)]: the next datagram, cut at [bufsize] bytes. *)
Definition recvfrom (bufsize : nat) : IO (list byte) :=
  fun w =>
    match inbox w with
    | [] => (Err socket_error, w)
    | Ok d :: rest => (Ok (take bufsize d), World rest (sent w))
    | Err e :: rest => (Err e, World rest (sent w))
    end.

(** ** Constants of api_v2.py *)

Definition PACKET_PREFIX : string := "FDFD".
Definition PACKET_PROTOCOL_TYPE : string := "02".
Definition PACKET_SIZE_ID : string := "10".

Definition FUNC_READ : string := "01".
Definition FUNC_WRITE : string := "02".
Definition FUNC_READ_WRITE : string := "03".
Definition FUNC_INC : string := "04".
Definition FUNC_DEC : string := "05".
Definition FUNC_RESULT : string := "06".

Definition RETURN_CHANGE_FUNC : string := "FC".
Definition RETURN_INVALID : string := "FD".
Definition RETURN_VALUE_SIZE : string := "FE".
Definition RETURN_HIGH_BYTE : string := "FF".

Definition COMMAND_ON_OFF : string := "01".
Definition COMMAND_SPEED : string := "02".
Definition COMMAND_CURRENT_HUMIDITY : string := "25".
Definition COMMAND_DIRECTION : string := "B7".
Definition COMMAND_DEVICE_TYPE : string := "B9".
Definition COMMAND_MODE : string := "07".

Definition POWER_OFF : string := "00".
Definition POWER_ON : string := "01".
Definition POWER_TOGGLE : string := "02".

Definition MODE_OFF : string := "01".
Definition MODE_SLEEP : string := "01".
Definition MODE_PARTY : string := "02".

(** The state of a [SikuV2Api] object. *)
Record SikuV2Api : Type := {
  host : string;
  port : N;
  idnum : Py.pystr;
  password : Py.pystr
}.

(** The dict returned by [_translate_response], one field per key. *)
Record DeviceStatus : Type := {
  st_is_on : bool;
  st_speed : string;
  st_oscillating : bool;
  st_direction : option string;
  st_mode : string
}.

(** ** Checksum and packet building *)

Definition _hexlist (hexstr : string) : list string := Py.chunks2 hexstr.

(** The loop [for hexstr in l: checksum += int(hexstr, 16)]. *)
Fixpoint sum_hex (l : list string) (checksum : N) : result N :=
  match l with
  | [] => Ok checksum
  | hexstr :: l' =>
      v ← Py.int16 hexstr;
      sum_hex l' (checksum + v)%N
  end.

(** Line 138: the characters 2-3 of [checksum_str], then its characters
    0-1. *)
Definition swap_bytes (checksum_str : string) : string :=
  Py.format_str_02 (Py.slice_str 2 4 checksum_str)
  +:+ Py.format_str_02 (Py.slice_str 0 2 checksum_str).

Definition _checksum (data : string) : result string :=
  let hexlist := _hexlist data in
  checksum ← sum_hex (drop 2 hexlist) 0%N;
  let checksum_str := Py.format_04X checksum in
  mret (swap_bytes checksum_str).

Definition _verify_checksum (hexlist : list string) : result bool :=
  checksum ← _checksum (Py.join (take (length hexlist - 2) hexlist));
  a ← Py.index_from_end hexlist 2;
  b ← Py.index_from_end hexlist 1;
  mret (bool_decide (checksum = a +:+ b)).

Definition _login_packet (self : SikuV2Api) : result string :=
  id_bytes ← Py.encode_utf8 (idnum self);
  let id_hex := Py.hex id_bytes in
  let password_size := Py.format_02x (N.of_nat (length (password self))) in
  password_bytes ← Py.encode_utf8 (password self);
  let password_hex := Py.hex password_bytes in
  mret (Py.upper (PACKET_PREFIX +:+ PACKET_PROTOCOL_TYPE +:+ PACKET_SIZE_ID
                  +:+ id_hex +:+ password_size +:+ password_hex)).

Definition _build_packet (self : SikuV2Api) (func data : string)
  : result string :=
  login ← _login_packet self;
  let packet_str := Py.upper (login +:+ func +:+ data) in
  checksum ← _checksum packet_str;
  mret (packet_str +:+ checksum).

Definition _send_command (self : SikuV2Api) (func data : string)
  : IO (list string) :=
  packet_str ← lift (_build_packet self func data);
  packet_data ← lift (Py.fromhex packet_str);
  _ ← sendto packet_data (host self, port self);
  result_data ← recvfrom 256;
  let result_str := Py.upper (Py.hex result_data) in
  let result_hexlist := Py.pairs result_str in
  ok ← lift (_verify_checksum result_hexlist);
  if ok : bool then mret result_hexlist
  else lift (Err (Exception_ "Checksum error")).

(** ** The response field parser *)

(** Lines 245-269 of [_parse_response]: the prefix and protocol type checks
    and the skips of the id and password blocks; the result is [start], the
    index of the function token. *)
Definition parse_header (hexlist : list string) : result nat :=
  let start := 0 in
  if negb (bool_decide (Py.join (Py.slice 0 2 hexlist) = PACKET_PREFIX))
  then Err (Exception_ "Invalid packet prefix")
  else
    let start := start + 2 in
    tok ← Py.index hexlist start;
    if negb (bool_decide (tok = PACKET_PROTOCOL_TYPE))
    then Err (Exception_ "Invalid packet protocol type")
    else
      let start := start + 1 in
      tok ← Py.index hexlist start;
      n ← Py.int16 tok;
      let start := start + (1 + N.to_nat n) in
      tok ← Py.index hexlist start;
      n ← Py.int16 tok;
      let start := start + (1 + N.to_nat n) in
      mret start.

(** The [while i < len(hexlist) - 2] loop (lines 281-323). Every iteration
    moves [i] forward, so [fuel] iterations with [fuel = len(hexlist)] are
    enough; [OutOfFuel] marks the exhaustion of [fuel]. *)
Fixpoint parse_fields (fuel : nat) (hexlist : list string) (i : nat)
    (data : gmap string string) : result (gmap string string) :=
  if decide (i + 2 < length hexlist) then
    match fuel with
    | O => Err OutOfFuel
    | S fuel' =>
        parameter ← Py.index hexlist i;
        if decide (parameter = RETURN_CHANGE_FUNC) then
          Err (Exception_ "special function, change base function not implemented")
        else if decide (parameter = RETURN_INVALID) then
          let i := i + 1 in
          cmd ← Py.index hexlist i;
          let value := EmptyString in
          parse_fields fuel' hexlist (i + 1) (<[cmd := value]> data)
        else if decide (parameter = RETURN_VALUE_SIZE) then
          let i := i + 1 in
          tok ← Py.index hexlist i;
          n ← Py.int16 tok;
          let value_size := N.to_nat n in
          let i := i + 1 in
          cmd ← Py.index hexlist i;
          let value := Py.join (Py.slice (i + 1) (i + 1 + value_size) hexlist) in
          let value := Py.join (rev (Py.chunks2 value)) in
          let i := i + value_size in
          parse_fields fuel' hexlist (i + 1) (<[cmd := value]> data)
        else if decide (parameter = RETURN_HIGH_BYTE) then
          Err (Exception_ "special function, high byte not implemented")
        else
          let cmd := parameter in
          let i := i + 1 in
          value ← Py.index hexlist i;
          parse_fields fuel' hexlist (i + 1) (<[cmd := value]> data)
    end
  else Ok data.

(** [except KeyError as ex: raise Exception(...) from ex] *)
Definition reraise_KeyError {A} (body : result A) : result A :=
  match body with
  | Err (KeyError k) =>
      Err (Exception_ ("Error translating response from fan controller: '"
                       +:+ k +:+ "'"))
  | r => r
  end.

Definition _parse_response (hexlist : list string)
  : result (gmap string string) :=
  reraise_KeyError (
    start ← parse_header hexlist;
    tok ← Py.index hexlist start;
    if negb (bool_decide (tok = FUNC_RESULT))
    then Err (Exception_ "Invalid result function")
    else
      let start := start + 1 in
      parse_fields (length hexlist) hexlist start ∅).

(** ** Wire encoding and decoding *)

(** The token of one byte in a hex list: two upper-case hexadecimal digits. *)
Definition token (b : byte) : string := Py.upper (Py.hex_of_byte b).

(** [bs.hex().upper()] *)
Definition hexU (bs : list byte) : string := Py.upper (Py.hex bs).

(** Encode: the datagram that [_send_command] hands to [sendto] (lines
    177-178). *)
Definition encode (self : SikuV2Api) (func data : string)
  : result (list byte) :=
  packet_str ← _build_packet self func data;
  Py.fromhex packet_str.

(** Decode: the hex list that [_send_command] cuts from a datagram (lines
    203-206). *)
Definition decode (wire : list byte) : list string :=
  Py.pairs (Py.upper (Py.hex wire)).

(** ** The specification's wording, for comparison with the code *)

Definition byte_sum (bs : list byte) : N :=
  foldr (fun b acc => (Byte.to_N b + acc)%N) 0%N bs.

(** Section 4.1: the sum of all bytes but the leading two, truncated to 16
    bits, low byte first. *)
Definition checksum_spec (bs : list byte) : list byte :=
  let sum := N.land (byte_sum (drop 2 bs)) 0xFFFF in
  [Py.byte_of_N (N.land sum 0xFF); Py.byte_of_N (N.shiftr sum 8)].

(** Section 4.2, step 1 and 2: prefix, protocol type, size-class marker, id
    length and id bytes, password length and password bytes. *)
Definition header_spec (id_bytes password_bytes : list byte) : list byte :=
  [xfd; xfd; x02; x10]
  ++ [Py.byte_of_N (N.of_nat (length id_bytes))] ++ id_bytes
  ++ [Py.byte_of_N (N.of_nat (length password_bytes))] ++ password_bytes.

(** What [_login_packet] emits: the byte 0x10 stands where the id length is
    expected and the id bytes follow it at once; [n] is the length written
    before the password bytes. *)
Definition login_bytes (id_bytes : list byte) (n : nat)
    (password_bytes : list byte) : list byte :=
  [xfd; xfd; x02; x10]
  ++ id_bytes
  ++ [Py.byte_of_N (N.of_nat n)] ++ password_bytes.

(** Section 4.3: a field stream made of complete fields, with the mapping it
    denotes. [field_stream fs d d'] reads the fields of [fs] into [d], later
    fields overwriting earlier ones, and yields [d']. *)
Inductive field_stream
  : list string -> gmap string string -> gmap string string -> Prop :=
| fs_nil d :
    field_stream [] d d
| fs_plain cmd value rest d d' :
    cmd ≠ RETURN_CHANGE_FUNC -> cmd ≠ RETURN_INVALID ->
    cmd ≠ RETURN_VALUE_SIZE -> cmd ≠ RETURN_HIGH_BYTE ->
    field_stream rest (<[cmd := value]> d) d' ->
    field_stream (cmd :: value :: rest) d d'
| fs_invalid cmd rest d d' :
    field_stream rest (<[cmd := EmptyString]> d) d' ->
    field_stream (RETURN_INVALID :: cmd :: rest) d d'
| fs_sized n cmd value rest d d' :
    Py.int16 n = Ok (N.of_nat (length value)) ->
    Forall (fun t => String.length t = 2) value ->
    field_stream rest (<[cmd := Py.join (rev value)]> d) d' ->
    field_stream (RETURN_VALUE_SIZE :: n :: cmd :: value ++ rest) d d'.

(** Section 4.4: a value below 100 as a decimal string of two digits. *)
Definition decimal_digit (d : N) : ascii := ascii_of_N (48 + d).

Definition two_digits (n : N) : string :=
  String (decimal_digit (n / 10)) (String (decimal_digit (n mod 10)) EmptyString).

(** A value below 1000 in decimal, with at least two digits. *)
Definition padded_decimal (n : N) : string :=
  if (n <? 100)%N then two_digits n
  else String (decimal_digit (n / 100)) (two_digits (n mod 100)).

(** ** Auxiliary notions for the proofs *)

(** An upper-case hexadecimal digit. *)
Definition upper_hex_digit (c : ascii) : Prop :=
  exists d, (d < 16)%N /\ c = Py.hexdigit true d.

Fixpoint all_chars (P : ascii -> Prop) (s : string) : Prop :=
  match s with
  | EmptyString => True
  | String c s' => P c /\ all_chars P s'
  end.

(** [P] holds of 0, 1, ..., k-1 (a check by enumeration). *)
Definition all_below (P : N -> bool) (k : N) : bool :=
  snd (N.iter k (fun st => (N.succ (fst st), snd st && P (fst st))) (0%N, true)).

(** The exceptions that [_parse_response] raises by itself or lets through. *)
Definition parser_error (e : exn) : Prop :=
  e = IndexError \/
  e = ValueError "invalid literal for int() with base 16" \/
  e = Exception_ "Invalid packet prefix" \/
  e = Exception_ "Invalid packet protocol type" \/
  e = Exception_ "Invalid result function" \/
  e = Exception_ "special function, change base function not implemented" \/
  e = Exception_ "special function, high byte not implemented".

(** The bytes of a response of the device: prefix, protocol type, id block,
    password block, result function, field bytes and the two checksum
    bytes. *)
Definition response_bytes (id_bytes password_bytes fields : list byte)
    (c1 c2 : byte) : list byte :=
  [xfd; xfd; x02; Py.byte_of_N (N.of_nat (length id_bytes))] ++ id_bytes
  ++ [Py.byte_of_N (N.of_nat (length password_bytes))] ++ password_bytes
  ++ [x06] ++ fields ++ [c1; c2].

(** ** Sample values *)

Module Sample.

(** Values for the constants of const.py, after the comment at the head of
    api_v2.py (forward, reverse, alternating). *)
Definition DIRECTION_ALTERNATING : string := "alternating".
Definition DIRECTIONS : Py.odict :=
  [("00", "forward"); ("01", "reverse"); ("02", "alternating")].
Definition FAN_SPEEDS : list string := ["01"; "02"; "03"].
Definition PRESET_MODE_AUTO : string := "auto".
Definition PRESET_MODE_PARTY : string := "party".
Definition PRESET_MODE_SLEEP : string := "sleep".

(** The credentials of the end-to-end example of the specification. *)
Definition api_A1 : SikuV2Api :=
  {| host := "192.168.1.20"; port := 4000;
     idnum := Py.of_ascii_string "A1";
     password := Py.of_ascii_string "pw" |}.

(** A client with an id of sixteen characters. *)
Definition api_16 : SikuV2Api :=
  {| host := "192.168.1.20"; port := 4000;
     idnum := Py.of_ascii_string "0000000000000000";
     password := Py.of_ascii_string "1111" |}.

(** A client whose id has 256 characters. *)
Definition api_long_id : SikuV2Api :=
  {| host := "192.168.1.20"; port := 4000;
     idnum := repeat 65%N 256;
     password := Py.of_ascii_string "pw" |}.

(** A client whose password is 200 times the character U+00FF. *)
Definition api_high_password : SikuV2Api :=
  {| host := "192.168.1.20"; port := 4000;
     idnum := Py.of_ascii_string "0000000000000000";
     password := repeat 255%N 200 |}.

Definition world0 : world := World [] [].

(** The head of a response of the device: prefix, protocol type, an id block
    of sixteen bytes, a password block of four bytes, and the result
    function. *)
Definition response_head : list string :=
  ["FD"; "FD"; "02"; "10"] ++ repeat "30" 16
  ++ ["04"; "31"; "31"; "31"; "31"; "06"].

(** A sized field that declares four value bytes and carries one, followed
    by the checksum. *)
Definition response_short_value : list string :=
  response_head ++ ["FE"; "04"; "25"; "11"] ++ ["18"; "05"].

(** A plain field without its value, followed by the checksum. *)
Definition response_missing_value : list string :=
  response_head ++ ["01"] ++ ["E1"; "03"].

(** The device rejects the speed command. *)
Definition response_invalid_speed : list string :=
  response_head ++ ["FD"; "02"] ++ ["DF"; "04"].


(** A complete status response. *)
Definition response_status : list string :=
  response_head
  ++ ["01"; "01"; "02"; "03"; "FE"; "02"; "25"; "00"; "11"; "B7"; "01"; "07"; "01"]
  ++ ["DD"; "05"].

(** The same response from a device with another id and password. *)
Definition response_status_other : list string :=
  ["FD"; "FD"; "02"; "10"] ++ repeat "41" 16
  ++ ["04"; "70"; "61"; "73"; "73"; "06"]
  ++ ["01"; "01"; "02"; "03"; "FE"; "02"; "25"; "00"; "11"; "B7"; "01"; "07"; "01"]
  ++ ["E0"; "07"].

(** The field bytes and the datagram of the complete status response
    above, and the mapping its fields denote. *)
Definition status_fields : list byte :=
  [x01; x01; x02; x03; xfe; x02; x25; x00; x11; xb7; x01; x07; x01].

Definition status_datagram : list byte :=
  response_bytes (repeat x30 16) (repeat x31 4) status_fields xdd x05.

Definition status_map : gmap string string :=
  <["07" := "01"]> (<["B7" := "01"]> (<["25" := "1100"]>
    (<["02" := "03"]> (<["01" := "01"]> ∅)))).

(** The network with one response pending, and with two. *)
Definition world_status : world := World [Ok status_datagram] [].

Definition world_write : world :=
  World [Ok status_datagram; Ok status_datagram] [].

(** A network on which [sendto] raises: the host does not resolve. *)
Definition world_refused : world := World [Err gaierror] [].

(** A network that delivers a single byte. *)
Definition world_short : world := World [Ok [xfd]] [].

(** A network that delivers a datagram with a wrong checksum. *)
Definition world_corrupt : world :=
  World [Ok (response_bytes (repeat x30 16) (repeat x31 4) status_fields
               xdd x06)] [].

(** A client whose password has 256 characters. *)
Definition api_long_password : SikuV2Api :=
  {| host := "192.168.1.20"; port := 4000;
     idnum := Py.of_ascii_string "0000000000000000";
     password := repeat 65%N 256 |}.

(** A client whose password is p followed by U+00E9. *)
Definition api_accent : SikuV2Api :=
  {| host := "192.168.1.20"; port := 4000;
     idnum := Py.of_ascii_string "0000000000000000";
     password := [112%N; 233%N] |}.

End Sample.

(** ** The state translator and the command methods *)

Section Api.

(** const.py is not part of the sources at hand; its constants are taken as
    parameters. [DIRECTIONS] is a dict from raw direction codes to direction
    names, [FAN_SPEEDS] the collection of valid speeds. *)
Variable DIRECTION_ALTERNATING : string.
Variable DIRECTIONS : Py.odict.
Variable FAN_SPEEDS : list string.
Variables PRESET_MODE_AUTO PRESET_MODE_PARTY PRESET_MODE_SLEEP : string.

(** The dict display [MODES]: the items are stored in order, a later item
    with an equal key replaces the value of the earlier one. *)
Definition MODES : gmap string string :=
  <[MODE_PARTY := PRESET_MODE_PARTY]>
    (<[MODE_SLEEP := PRESET_MODE_SLEEP]>
       (<[MODE_OFF := PRESET_MODE_AUTO]> ∅)).

Definition _translate_response (data : gmap string string)
  : result DeviceStatus :=
  is_on ← Py.try_except_KeyError
    (v ← Py.getitem data COMMAND_ON_OFF;
     mret (bool_decide (v = POWER_ON)))
    (mret false);
  speed ← Py.try_except_KeyError
    (v ← Py.getitem data COMMAND_SPEED;
     n ← Py.int16 v;
     mret (Py.format_02 n))
    (mret "00");
  '(direction, oscillating) ← Py.try_except_KeyError
    (v ← Py.getitem data COMMAND_DIRECTION;
     direction ← Py.odict_getitem DIRECTIONS v;
     mret (Some direction, bool_decide (direction = DIRECTION_ALTERNATING)))
    (mret (None, true));
  mode ← Py.try_except_KeyError
    (v ← Py.getitem data COMMAND_MODE;
     Py.getitem MODES v)
    (mret PRESET_MODE_AUTO);
  mret {| st_is_on := is_on;
          st_speed := speed;
          st_oscillating := oscillating;
          st_direction := direction;
          st_mode := mode |}.

Definition status (self : SikuV2Api) : IO DeviceStatus :=
  let cmd := Py.upper (COMMAND_DEVICE_TYPE +:+ COMMAND_ON_OFF +:+ COMMAND_SPEED
                       +:+ COMMAND_CURRENT_HUMIDITY +:+ COMMAND_DIRECTION
                       +:+ COMMAND_MODE) in
  hexlist ← _send_command self FUNC_READ cmd;
  data ← lift (_parse_response hexlist);
  lift (_translate_response data).

Definition power_on (self : SikuV2Api) : IO DeviceStatus :=
  let cmd := Py.upper (COMMAND_ON_OFF +:+ POWER_ON) in
  _ ← _send_command self FUNC_READ_WRITE cmd;
  status self.

Definition power_off (self : SikuV2Api) : IO DeviceStatus :=
  let cmd := Py.upper (COMMAND_ON_OFF +:+ POWER_OFF) in
  _ ← _send_command self FUNC_READ_WRITE cmd;
  status self.

Definition speed (self : SikuV2Api) (speed : string) : IO DeviceStatus :=
  if decide (speed ∉ FAN_SPEEDS) then
    lift (Err (ValueError ("Invalid fan speed: " +:+ speed)))
  else
    let cmd := Py.upper (COMMAND_SPEED +:+ speed) in
    _ ← _send_command self FUNC_READ_WRITE cmd;
    status self.

Definition direction (self : SikuV2Api) (direction : string)
  : IO DeviceStatus :=
  direction ← lift (
    if decide (direction ∈ Py.values DIRECTIONS) then
      k ← Py.list_index (Py.values DIRECTIONS) direction;
      Py.index (Py.keys DIRECTIONS) k
    else mret direction);
  if decide (direction ∉ Py.keys DIRECTIONS) then
    lift (Err (ValueError ("Invalid fan direction: " +:+ direction)))
  else
    let cmd := Py.upper (COMMAND_DIRECTION +:+ direction) in
    _ ← _send_command self FUNC_READ_WRITE cmd;
    status self.

Definition sleep (self : SikuV2Api) : IO DeviceStatus :=
  let cmd := Py.upper (COMMAND_ON_OFF +:+ POWER_ON +:+ COMMAND_MODE
                       +:+ MODE_SLEEP) in
  _ ← _send_command self FUNC_READ_WRITE cmd;
  status self.

Definition party (self : SikuV2Api) : IO DeviceStatus :=
  let cmd := Py.upper (COMMAND_ON_OFF +:+ POWER_ON +:+ COMMAND_MODE
                       +:+ MODE_PARTY) in
  _ ← _send_command self FUNC_READ_WRITE cmd;
  status self.

Definition humidity (self : SikuV2Api) : IO (option string) :=
  let cmd := Py.upper COMMAND_CURRENT_HUMIDITY in
  hexlist ← _send_command self FUNC_READ cmd;
  data ← lift (_parse_response hexlist);
  mret (data !! COMMAND_CURRENT_HUMIDITY).

(** ** Facts about the Python primitives *)

Arguments token : simpl never.
Arguments hexU : simpl never.

Lemma append_nil_l (b : string) : EmptyString +:+ b = b.
Proof. reflexivity. Qed.

Lemma append_cons (x : ascii) (a b : string) :
  String x a +:+ b = String x (a +:+ b).
Proof. reflexivity. Qed.

Lemma append_assoc (a b c : string) : (a +:+ b) +:+ c = a +:+ (b +:+ c).
Proof.
  induction a as [|x a IH]; [reflexivity|].
  now rewrite !append_cons, IH.
Qed.

Lemma append_nil_r (a : string) : a +:+ EmptyString = a.
Proof.
  induction a as [|x a IH]; [reflexivity|].
  now rewrite append_cons, IH.
Qed.

Lemma length_append (a b : string) :
  String.length (a +:+ b) = String.length a + String.length b.
Proof.
  induction a as [|x a IH]; [reflexivity|].
  rewrite append_cons. simpl. now rewrite IH.
Qed.

Lemma upper_char_idem (c : ascii) : Py.upper_char (Py.upper_char c) = Py.upper_char c.
Proof. destruct c as [[] [] [] [] [] [] [] []]; reflexivity. Qed.

Lemma upper_idem (s : string) : Py.upper (Py.upper s) = Py.upper s.
Proof.
  induction s as [|c s IH]; simpl; [reflexivity|].
  now rewrite upper_char_idem, IH.
Qed.

Lemma upper_app (a b : string) : Py.upper (a +:+ b) = Py.upper a +:+ Py.upper b.
Proof.
  induction a as [|x a IH]; [reflexivity|].
  rewrite append_cons. simpl. now rewrite append_cons, IH.
Qed.

Lemma hexU_nil : hexU [] = EmptyString.
Proof. reflexivity. Qed.

Lemma hexU_cons (b : byte) (bs : list byte) : hexU (b :: bs) = token b +:+ hexU bs.
Proof. unfold hexU, token. simpl Py.hex. now rewrite upper_app. Qed.

Lemma hexU_app (xs ys : list byte) : hexU (xs ++ ys) = hexU xs +:+ hexU ys.
Proof.
  induction xs as [|b xs IH]; [reflexivity|].
  rewrite <- app_comm_cons, !hexU_cons, IH. now rewrite append_assoc.
Qed.

Lemma upper_hexU (bs : list byte) : Py.upper (hexU bs) = hexU bs.
Proof. apply upper_idem. Qed.

(** A token is two characters. *)
Lemma token_shape (b : byte) :
  exists x y, token b = String x (String y EmptyString).
Proof. unfold token, Py.hex_of_byte. simpl. eauto. Qed.

Lemma token_length (b : byte) : String.length (token b) = 2.
Proof. destruct (token_shape b) as (x & y & ->). reflexivity. Qed.

Lemma int16_token (b : byte) : Py.int16 (token b) = Ok (Byte.to_N b).
Proof. destruct b; reflexivity. Qed.

Lemma chunks2_token (b : byte) (s : string) :
  Py.chunks2 (token b +:+ s) = token b :: Py.chunks2 s.
Proof. destruct (token_shape b) as (x & y & ->). reflexivity. Qed.

Lemma pairs_token (b : byte) (s : string) :
  Py.pairs (token b +:+ s) = token b :: Py.pairs s.
Proof. destruct (token_shape b) as (x & y & ->). reflexivity. Qed.

Lemma chunks2_hexU (bs : list byte) : Py.chunks2 (hexU bs) = map token bs.
Proof.
  induction bs as [|b bs IH]; [reflexivity|].
  now rewrite hexU_cons, chunks2_token, IH.
Qed.

Lemma pairs_hexU (bs : list byte) : Py.pairs (hexU bs) = map token bs.
Proof.
  induction bs as [|b bs IH]; [reflexivity|].
  now rewrite hexU_cons, pairs_token, IH.
Qed.

Lemma join_tokens (bs : list byte) : Py.join (map token bs) = hexU bs.
Proof.
  induction bs as [|b bs IH]; [reflexivity|].
  simpl. now rewrite hexU_cons, IH.
Qed.

Lemma fromhex_token (b : byte) (s : string) :
  Py.fromhex (token b +:+ s) = (rest ← Py.fromhex s; mret (b :: rest)).
Proof. destruct b; reflexivity. Qed.

Lemma fromhex_hexU (bs : list byte) : Py.fromhex (hexU bs) = Ok bs.
Proof.
  induction bs as [|b bs IH]; [reflexivity|].
  now rewrite hexU_cons, fromhex_token, IH.
Qed.

Lemma decode_tokens (wire : list byte) : decode wire = map token wire.
Proof. apply pairs_hexU. Qed.

Lemma byte_of_to_N (b : byte) : Py.byte_of_N (Byte.to_N b) = b.
Proof. unfold Py.byte_of_N. now rewrite Byte.of_to_N. Qed.

Lemma to_N_byte_of_N (n : N) : (n < 256)%N -> Byte.to_N (Py.byte_of_N n) = n.
Proof.
  intros Hn. unfold Py.byte_of_N.
  destruct (Byte.of_N n) as [b|] eqn:E.
  - now apply Byte.to_of_N.
  - apply Byte.of_N_None_iff in E. lia.
Qed.

Lemma format_02x_byte (b : byte) : Py.upper (Py.format_02x (Byte.to_N b)) = token b.
Proof. destruct b; reflexivity. Qed.

Lemma format_02x_token (n : N) :
  (n < 256)%N -> Py.upper (Py.format_02x n) = token (Py.byte_of_N n).
Proof.
  intros Hn. rewrite <- (to_N_byte_of_N n Hn) at 1. apply format_02x_byte.
Qed.

Lemma byte_sum_cons (b : byte) (bs : list byte) :
  byte_sum (b :: bs) = (Byte.to_N b + byte_sum bs)%N.
Proof. reflexivity. Qed.

Lemma byte_sum_app (xs ys : list byte) :
  byte_sum (xs ++ ys) = (byte_sum xs + byte_sum ys)%N.
Proof.
  induction xs as [|b xs IH]; [reflexivity|].
  rewrite <- app_comm_cons, !byte_sum_cons, IH. lia.
Qed.

Lemma sum_hex_tokens (bs : list byte) (acc : N) :
  sum_hex (map token bs) acc = Ok (acc + byte_sum bs)%N.
Proof.
  revert acc. induction bs as [|b bs IH]; intros acc; cbn.
  - now rewrite N.add_0_r.
  - rewrite int16_token. cbn. rewrite IH. f_equal. fold (byte_sum bs). lia.
Qed.

(** ** Facts about number formatting and the checksum *)

Lemma all_below_inv (P : N -> bool) (k : N) :
  let st := N.iter k (fun st => (N.succ (fst st), snd st && P (fst st))) (0%N, true) in
  fst st = k /\ (snd st = true -> forall n, (n < k)%N -> P n = true).
Proof.
  induction k as [|k IH] using N.peano_ind; cbv zeta.
  - split; [reflexivity | intros _ n Hn; lia].
  - rewrite N.iter_succ. cbv zeta in IH. destruct IH as [Hfst Hall].
    cbn [fst snd]. rewrite Hfst. split; [reflexivity|].
    intros [Hsnd HP]%andb_true_iff n Hn.
    destruct (N.eq_dec n k) as [->|Hne]; [exact HP|].
    apply Hall; [exact Hsnd | lia].
Qed.

Lemma all_below_spec (P : N -> bool) (k : N) :
  all_below P k = true -> forall n, (n < k)%N -> P n = true.
Proof. intros H. now apply (all_below_inv P k). Qed.

Lemma all_chars_app (P : ascii -> Prop) (a b : string) :
  all_chars P a -> all_chars P b -> all_chars P (a +:+ b).
Proof.
  induction a as [|x a IH]; [now intros|].
  rewrite append_cons. cbn. intros [Hx Ha] Hb. split; auto.
Qed.

Lemma upper_hex_digit_zero : upper_hex_digit "0"%char.
Proof. exists 0%N. split; [lia | reflexivity]. Qed.

Lemma all_chars_zeros (k : nat) : all_chars upper_hex_digit (Py.zeros k).
Proof. induction k; cbn; auto using upper_hex_digit_zero. Qed.

Lemma length_zeros (k : nat) : String.length (Py.zeros k) = k.
Proof. induction k; cbn; auto. Qed.

Lemma digits_upper_hex (fuel : nat) (n : N) (acc : string) :
  all_chars upper_hex_digit acc ->
  all_chars upper_hex_digit (Py.digits 16 true fuel n acc).
Proof.
  revert n acc. induction fuel as [|fuel IH]; intros n acc Hacc; cbn; [exact Hacc|].
  assert (all_chars upper_hex_digit (String (Py.hexdigit true (n mod 16)) acc)) as H.
  { cbn. split; [|exact Hacc]. exists (n mod 16)%N. split; [|reflexivity].
    apply N.mod_lt. lia. }
  destruct (n / 16 =? 0)%N; [exact H | now apply IH].
Qed.

Lemma format_04X_chars (n : N) : all_chars upper_hex_digit (Py.format_04X n).
Proof.
  unfold Py.format_04X, Py.zfill, Py.to_base.
  apply all_chars_app; [apply all_chars_zeros | now apply digits_upper_hex].
Qed.

Lemma format_04X_length (n : N) : 4 <= String.length (Py.format_04X n).
Proof.
  unfold Py.format_04X, Py.zfill. rewrite length_append, length_zeros. lia.
Qed.

(** Two upper-case hexadecimal digits are the token of a byte. *)
Lemma token_of_digits (x y : ascii) :
  upper_hex_digit x -> upper_hex_digit y ->
  exists b, token b = String x (String y EmptyString).
Proof.
  intros (h & Hh & ->) (l & Hl & ->).
  exists (Py.byte_of_N (16 * h + l)).
  assert (h = 0 \/ h = 1 \/ h = 2 \/ h = 3 \/ h = 4 \/ h = 5 \/ h = 6 \/ h = 7 \/
          h = 8 \/ h = 9 \/ h = 10 \/ h = 11 \/ h = 12 \/ h = 13 \/ h = 14 \/
          h = 15)%N as Hcases by lia.
  assert (l = 0 \/ l = 1 \/ l = 2 \/ l = 3 \/ l = 4 \/ l = 5 \/ l = 6 \/ l = 7 \/
          l = 8 \/ l = 9 \/ l = 10 \/ l = 11 \/ l = 12 \/ l = 13 \/ l = 14 \/
          l = 15)%N as Lcases by lia.
  clear Hh Hl.
  repeat (destruct Hcases as [->|Hcases]); try subst h;
    repeat (destruct Lcases as [->|Lcases]); try subst l; reflexivity.
Qed.

(** Whatever the sum, line 138 yields two byte tokens. *)
Lemma swap_bytes_two_tokens (n : N) :
  exists c1 c2, swap_bytes (Py.format_04X n) = token c1 +:+ token c2.
Proof.
  pose proof (format_04X_chars n) as Hc.
  pose proof (format_04X_length n) as Hl.
  destruct (Py.format_04X n) as [|a [|b [|c [|d rest]]]]; cbn in Hl; try lia.
  cbn in Hc. destruct Hc as (Ha & Hb & Hc & Hd & _).
  destruct (token_of_digits c d Hc Hd) as (c1 & E1).
  destruct (token_of_digits a b Ha Hb) as (c2 & E2).
  exists c1, c2. rewrite E1, E2. destruct rest; reflexivity.
Qed.

(** Below 0x10000 the rendering is the low byte, then the high byte. *)
Lemma swap_bytes_in_range (n : N) :
  (n < 65536)%N ->
  swap_bytes (Py.format_04X n)
  = token (Py.byte_of_N (n mod 256)) +:+ token (Py.byte_of_N (n / 256)).
Proof.
  intros Hn.
  apply (all_below_spec
    (fun n => String.eqb
       (swap_bytes (Py.format_04X n))
       (token (Py.byte_of_N (n mod 256)) +:+ token (Py.byte_of_N (n / 256))))
    65536) in Hn.
  - now apply String.eqb_eq in Hn.
  - vm_compute. reflexivity.
Qed.

Lemma checksum_hexU (bs : list byte) :
  _checksum (hexU bs) = Ok (swap_bytes (Py.format_04X (byte_sum (drop 2 bs)))).
Proof.
  unfold _checksum, _hexlist. rewrite chunks2_hexU.
  change (drop 2 (map token bs)) with (drop 2 (token <$> bs)).
  rewrite <- fmap_drop. change (token <$> drop 2 bs) with (map token (drop 2 bs)).
  rewrite sum_hex_tokens. reflexivity.
Qed.

Lemma checksum_two_bytes (bs : list byte) :
  exists c1 c2, _checksum (hexU bs) = Ok (hexU [c1; c2]).
Proof.
  rewrite checksum_hexU.
  destruct (swap_bytes_two_tokens (byte_sum (drop 2 bs))) as (c1 & c2 & E).
  exists c1, c2. rewrite E. rewrite !hexU_cons, hexU_nil, append_nil_r. reflexivity.
Qed.

(** Where the sum of the bytes after the leading two is below 0x10000, the
    code computes the checksum of the specification. *)
Lemma checksum_in_range (bs : list byte) :
  (byte_sum (drop 2 bs) < 65536)%N ->
  _checksum (hexU bs) = Ok (hexU (checksum_spec bs)).
Proof.
  intros Hn. rewrite checksum_hexU, swap_bytes_in_range by exact Hn.
  unfold checksum_spec. cbv zeta.
  change 0xFFFF%N with (N.ones 16). change 0xFF%N with (N.ones 8).
  rewrite !N.land_ones, N.shiftr_div_pow2.
  change (2 ^ 16)%N with 65536%N. change (2 ^ 8)%N with 256%N.
  rewrite (N.mod_small _ 65536) by exact Hn.
  rewrite !hexU_cons, hexU_nil, append_nil_r. reflexivity.
Qed.

Lemma index_middle {A} (l1 l2 : list A) (x : A) (i : nat) :
  i = length l1 -> Py.index (l1 ++ x :: l2) i = Ok x.
Proof. intros ->. unfold Py.index. now rewrite list_lookup_middle. Qed.

Lemma index_from_end_2 {A} (l : list A) (a b : A) :
  Py.index_from_end (l ++ [a; b]) 2 = Ok a.
Proof.
  unfold Py.index_from_end. rewrite length_app. cbn [length].
  rewrite decide_True by lia. apply index_middle. lia.
Qed.

Lemma index_from_end_1 {A} (l : list A) (a b : A) :
  Py.index_from_end (l ++ [a; b]) 1 = Ok b.
Proof.
  unfold Py.index_from_end. rewrite length_app. cbn [length].
  rewrite decide_True by lia.
  change (l ++ [a; b]) with (l ++ [a] ++ [b]). rewrite app_assoc.
  apply index_middle. rewrite length_app. cbn [length]. lia.
Qed.

Lemma verify_checksum_appended (bs : list byte) (c1 c2 : byte) :
  _checksum (hexU bs) = Ok (hexU [c1; c2]) ->
  _verify_checksum (map token (bs ++ [c1; c2])) = Ok true.
Proof.
  intros Hc. unfold _verify_checksum.
  rewrite map_app. cbn [map].
  rewrite index_from_end_2, index_from_end_1.
  rewrite length_app. cbn [length].
  replace (length (map token bs) + 2 - 2) with (length (map token bs)) by lia.
  rewrite take_app_length, join_tokens, Hc. cbn [mbind result_bind mret result_ret].
  rewrite !hexU_cons, hexU_nil, append_nil_r.
  now rewrite bool_decide_eq_true_2.
Qed.

(** ** Packet building *)

Lemma encode_utf8_cons (c : N) (s : Py.pystr) :
  Py.encode_utf8 (c :: s)
  = (bs ← Py.utf8_char c; rest ← Py.encode_utf8 s; mret (bs ++ rest)).
Proof. reflexivity. Qed.

Lemma utf8_char_length (c : N) (bs : list byte) :
  Py.utf8_char c = Ok bs -> 1 <= length bs.
Proof.
  unfold Py.utf8_char. intros H.
  repeat match type of H with
         | (if ?b then _ else _) = _ => destruct b
         end; inversion H; cbn; lia.
Qed.

(** A string has at most as many characters as UTF-8 bytes. *)
Lemma encode_utf8_length (s : Py.pystr) (bs : list byte) :
  Py.encode_utf8 s = Ok bs -> length s <= length bs.
Proof.
  revert bs. induction s as [|c s IH]; intros bs H.
  - cbn. lia.
  - rewrite encode_utf8_cons in H.
    destruct (Py.utf8_char c) as [cb|] eqn:Ec; [|discriminate].
    destruct (Py.encode_utf8 s) as [rest|] eqn:Es; [|discriminate].
    cbn in H. inversion H; subst.
    rewrite length_app. cbn [length].
    specialize (IH rest eq_refl). apply utf8_char_length in Ec. lia.
Qed.

(** An ASCII string encodes to one byte per character. *)
Lemma encode_utf8_ascii (s : Py.pystr) :
  Forall (fun c => (c < 128)%N) s ->
  Py.encode_utf8 s = Ok (map Py.byte_of_N s).
Proof.
  induction 1 as [|c s Hc _ IH]; [reflexivity|].
  rewrite encode_utf8_cons, IH. unfold Py.utf8_char.
  apply N.ltb_lt in Hc. change 0x80%N with 128%N. rewrite Hc. reflexivity.
Qed.

Lemma upper_token (b : byte) : Py.upper (token b) = token b.
Proof. apply upper_idem. Qed.

Lemma hexU_single (b : byte) : hexU [b] = token b.
Proof. now rewrite hexU_cons, hexU_nil, append_nil_r. Qed.

Lemma login_packet_bytes (self : SikuV2Api) (idb pwb : list byte) :
  Py.encode_utf8 (idnum self) = Ok idb ->
  Py.encode_utf8 (password self) = Ok pwb ->
  length (password self) <= 255 ->
  _login_packet self = Ok (hexU (login_bytes idb (length (password self)) pwb)).
Proof.
  intros Hid Hpw Hlen. unfold _login_packet. rewrite Hid, Hpw.
  cbn [mbind result_bind mret result_ret]. f_equal.
  rewrite !upper_app, format_02x_token by lia.
  unfold login_bytes.
  rewrite (hexU_app [xfd; xfd; x02; x10]), hexU_app, hexU_app, hexU_single.
  reflexivity.
Qed.

(** The bytes of a whole packet: login part, function, payload, and the two
    checksum bytes. *)
Lemma build_packet_bytes (self : SikuV2Api) (idb pwb : list byte)
    (f : byte) (payload : list byte) :
  Py.encode_utf8 (idnum self) = Ok idb ->
  Py.encode_utf8 (password self) = Ok pwb ->
  length (password self) <= 255 ->
  let body := login_bytes idb (length (password self)) pwb ++ f :: payload in
  exists c1 c2,
    _checksum (hexU body) = Ok (hexU [c1; c2]) /\
    _build_packet self (token f) (hexU payload) = Ok (hexU (body ++ [c1; c2])).
Proof.
  intros Hid Hpw Hlen body.
  destruct (checksum_two_bytes body) as (c1 & c2 & Hc).
  exists c1, c2. split; [exact Hc|].
  unfold _build_packet. rewrite (login_packet_bytes self idb pwb Hid Hpw Hlen).
  cbn [mbind result_bind].
  rewrite !upper_app, upper_hexU, upper_token, upper_hexU.
  rewrite <- hexU_cons, <- hexU_app. fold body. rewrite Hc.
  cbn [mbind result_bind mret result_ret]. now rewrite hexU_app.
Qed.

Lemma encode_bytes (self : SikuV2Api) (idb pwb : list byte)
    (f : byte) (payload : list byte) :
  Py.encode_utf8 (idnum self) = Ok idb ->
  Py.encode_utf8 (password self) = Ok pwb ->
  length (password self) <= 255 ->
  let body := login_bytes idb (length (password self)) pwb ++ f :: payload in
  exists c1 c2,
    _checksum (hexU body) = Ok (hexU [c1; c2]) /\
    encode self (token f) (hexU payload) = Ok (body ++ [c1; c2]).
Proof.
  intros Hid Hpw Hlen body.
  destruct (build_packet_bytes self idb pwb f payload Hid Hpw Hlen)
    as (c1 & c2 & Hc & Hb).
  exists c1, c2. split; [exact Hc|].
  unfold encode. rewrite Hb. cbn [mbind result_bind]. apply fromhex_hexU.
Qed.

(** ** The header of a response *)

Lemma parse_header_skips (n1 n2 : string) (id_block rest : list string) (v2 : N) :
  Py.int16 n1 = Ok (N.of_nat (length id_block)) ->
  Py.int16 n2 = Ok v2 ->
  parse_header ("FD" :: "FD" :: "02" :: n1 :: id_block ++ n2 :: rest)
  = Ok (5 + length id_block + N.to_nat v2).
Proof.
  intros H1 H2. unfold parse_header.
  change (Py.join (Py.slice 0 2 ("FD" :: "FD" :: "02" :: n1 :: id_block ++ n2 :: rest)))
    with PACKET_PREFIX.
  rewrite bool_decide_eq_true_2 by reflexivity. cbn [negb].
  change (Py.index ("FD" :: "FD" :: "02" :: n1 :: id_block ++ n2 :: rest) (0 + 2))
    with (Ok (A:=string) "02").
  cbn [mbind result_bind].
  rewrite bool_decide_eq_true_2 by reflexivity. cbn [negb].
  change (Py.index ("FD" :: "FD" :: "02" :: n1 :: id_block ++ n2 :: rest) (0 + 2 + 1))
    with (Ok n1).
  cbn [mbind result_bind]. rewrite H1. cbn [mbind result_bind].
  rewrite Nat2N.id.
  replace (Py.index _ (0 + 2 + 1 + (1 + length id_block))) with (Ok n2).
  - cbn [mbind result_bind]. rewrite H2. cbn [mbind result_bind mret result_ret].
    f_equal. lia.
  - symmetry.
    apply (index_middle ("FD" :: "FD" :: "02" :: n1 :: id_block) rest n2).
    cbn [length]. lia.
Qed.

Lemma int16_size_id : Py.int16 PACKET_SIZE_ID = Ok 16%N.
Proof. reflexivity. Qed.

(** ** Encoding and decoding a packet *)

(** C1, as amended. For every function byte, payload and credentials pair
    whose id serializes to exactly 16 UTF-8 bytes and whose password is ASCII
    with at most 255 characters, the packet is encoded as the login bytes,
    the function byte, the payload and two checksum bytes; the hex list
    decoded from these bytes passes the prefix and protocol type checks, the
    skips of the id and password blocks end just after the login bytes, on
    the token of the function byte, and the list passes [_verify_checksum]. *)
Theorem roundtrip_header_and_checksum
    (self : SikuV2Api) (f : byte) (payload idb : list byte) :
  Py.encode_utf8 (idnum self) = Ok idb ->
  length idb = 16 ->
  Forall (fun c => (c < 128)%N) (password self) ->
  length (password self) <= 255 ->
  exists c1 c2,
    let pwb := map Py.byte_of_N (password self) in
    let login := login_bytes idb (length pwb) pwb in
    let wire := login ++ f :: payload ++ [c1; c2] in
    Py.encode_utf8 (password self) = Ok pwb /\
    encode self (token f) (hexU payload) = Ok wire /\
    parse_header (decode wire) = Ok (length login) /\
    Py.index (decode wire) (length login) = Ok (token f) /\
    _verify_checksum (decode wire) = Ok true.
Proof.
  intros Hid Hid16 Hascii Hlen.
  pose proof (encode_utf8_ascii _ Hascii) as Hpw.
  destruct (encode_bytes self idb _ f payload Hid Hpw Hlen)
    as (c1 & c2 & Hc & He).
  exists c1, c2. cbv zeta. rewrite length_map.
  set (pwb := map Py.byte_of_N (password self)) in *.
  set (login := login_bytes idb (length (password self)) pwb) in *.
  assert (length login = 21 + length (password self)) as Hll.
  { unfold login, login_bytes, pwb.
    rewrite ?length_app; cbn [length]; rewrite ?length_app, ?length_map.
    cbn [length]. lia. }
  assert ((login ++ f :: payload) ++ [c1; c2]
          = login ++ f :: payload ++ [c1; c2]) as Hassoc
    by (now rewrite <- app_assoc).
  rewrite Hassoc in He.
  split; [exact Hpw|]. split; [exact He|]. rewrite decode_tokens.
  split; [|split].
  - rewrite Hll. unfold login, login_bytes. rewrite <- !app_assoc.
    cbn [app]. rewrite !map_cons, map_app, map_cons.
    change (token xfd) with "FD". change (token x02) with "02".
    change (token x10) with PACKET_SIZE_ID.
    rewrite (parse_header_skips PACKET_SIZE_ID _ (map token idb) _
               (N.of_nat (length (password self)))).
    + rewrite length_map, Hid16, Nat2N.id. reflexivity.
    + rewrite length_map, Hid16. reflexivity.
    + rewrite int16_token. f_equal. apply to_N_byte_of_N. lia.
  - rewrite map_app, map_cons. apply index_middle. now rewrite length_map.
  - rewrite <- Hassoc. now apply verify_checksum_appended.
Qed.

(** C2, as amended. For every credentials pair with an ASCII password of at
    most 255 characters, the login part of the packet consists of the 2-byte
    prefix, the protocol type, the fixed byte 0x10, the id's UTF-8 bytes (no
    id length byte precedes them), the password's UTF-8 byte count and the
    password's UTF-8 bytes. *)
Theorem login_packet_layout (self : SikuV2Api) (idb : list byte) :
  Py.encode_utf8 (idnum self) = Ok idb ->
  Forall (fun c => (c < 128)%N) (password self) ->
  length (password self) <= 255 ->
  exists pwb,
    Py.encode_utf8 (password self) = Ok pwb /\
    (login ← _login_packet self; Py.fromhex login)
    = Ok ([xfd; xfd; x02; x10] ++ idb
          ++ [Py.byte_of_N (N.of_nat (length pwb))] ++ pwb).
Proof.
  intros Hid Hascii Hlen.
  pose proof (encode_utf8_ascii _ Hascii) as Hpw.
  exists (map Py.byte_of_N (password self)). split; [exact Hpw|].
  rewrite (login_packet_bytes self idb _ Hid Hpw Hlen).
  cbn [mbind result_bind]. rewrite fromhex_hexU, length_map. reflexivity.
Qed.

(** ** The field loop *)

Lemma parse_fields_unfold (fuel : nat) (hexlist : list string) (i : nat)
    (data : gmap string string) :
  parse_fields fuel hexlist i data
  = if decide (i + 2 < length hexlist) then
      match fuel with
      | O => Err OutOfFuel
      | S fuel' =>
          parameter ← Py.index hexlist i;
          if decide (parameter = RETURN_CHANGE_FUNC) then
            Err (Exception_ "special function, change base function not implemented")
          else if decide (parameter = RETURN_INVALID) then
            cmd ← Py.index hexlist (i + 1);
            parse_fields fuel' hexlist (i + 1 + 1) (<[cmd := EmptyString]> data)
          else if decide (parameter = RETURN_VALUE_SIZE) then
            tok ← Py.index hexlist (i + 1);
            n ← Py.int16 tok;
            cmd ← Py.index hexlist (i + 1 + 1);
            parse_fields fuel' hexlist (i + 1 + 1 + N.to_nat n + 1)
              (<[cmd := Py.join (rev (Py.chunks2 (Py.join
                   (Py.slice (i + 1 + 1 + 1) (i + 1 + 1 + 1 + N.to_nat n) hexlist))))]> data)
          else if decide (parameter = RETURN_HIGH_BYTE) then
            Err (Exception_ "special function, high byte not implemented")
          else
            value ← Py.index hexlist (i + 1);
            parse_fields fuel' hexlist (i + 1 + 1) (<[parameter := value]> data)
      end
    else Ok data.
Proof. destruct fuel; reflexivity. Qed.

Lemma index_lt {A} (l : list A) (i : nat) :
  i < length l -> exists x, Py.index l i = Ok x.
Proof.
  intros H. unfold Py.index.
  destruct (lookup_lt_is_Some_2 l i H) as [x ->]. eauto.
Qed.

Lemma int16_error (s : string) (e : exn) :
  Py.int16 s = Err e -> e = ValueError "invalid literal for int() with base 16".
Proof.
  unfold Py.int16. destruct s; [now intros [= <-]|].
  destruct (Py.int16_digits _ _); [discriminate | now intros [= <-]].
Qed.

(** The loop stops before its fuel is used up. *)
Lemma parse_fields_fuel (fuel : nat) (hexlist : list string) (i : nat)
    (data : gmap string string) :
  length hexlist <= fuel + i ->
  parse_fields fuel hexlist i data <> Err OutOfFuel.
Proof.
  revert i data. induction fuel as [|fuel IH]; intros i data Hlen;
    rewrite parse_fields_unfold; destruct (decide (i + 2 < length hexlist)) as [Hi|Hi];
    try discriminate; [lia|].
  destruct (index_lt hexlist i) as [p ->]; [lia|].
  destruct (index_lt hexlist (i + 1)) as [q ->]; [lia|].
  destruct (index_lt hexlist (i + 1 + 1)) as [r Hr]; [lia|].
  cbn [mbind result_bind].
  repeat case_decide; try discriminate.
  - apply IH. lia.
  - destruct (Py.int16 q) as [n|e] eqn:En; cbn [mbind result_bind].
    + rewrite Hr. cbn [mbind result_bind]. apply IH. lia.
    + apply int16_error in En as ->. discriminate.
  - apply IH. lia.
Qed.

Lemma parse_header_fuel (hexlist : list string) :
  parse_header hexlist <> Err OutOfFuel.
Proof.
  unfold parse_header, Py.index, Py.int16.
  repeat match goal with
         | |- context [bool_decide ?P] => destruct (bool_decide P); cbn [negb]
         | |- context [?l !! ?i] => destruct (l !! i) as [[|??]|]; cbn [mbind result_bind]
         | |- context [Py.int16_digits ?s ?a] =>
             destruct (Py.int16_digits s a); cbn [mbind result_bind]
         end; discriminate.
Qed.

(** [_parse_response] returns or raises on every hex list: the fuel of the
    loop model is never exhausted. *)
Lemma parse_response_total (hexlist : list string) :
  _parse_response hexlist <> Err OutOfFuel.
Proof.
  unfold _parse_response.
  assert (forall r : result (gmap string string),
             r <> Err OutOfFuel -> reraise_KeyError r <> Err OutOfFuel) as Hre.
  { intros [m|[]] H; cbn; try discriminate; exact H. }
  apply Hre.
  pose proof (parse_header_fuel hexlist) as Hh.
  destruct (parse_header hexlist) as [start|e]; cbn [mbind result_bind];
    [|intros [= ->]; now apply Hh].
  unfold Py.index. destruct (hexlist !! start); cbn [mbind result_bind];
    [|discriminate].
  destruct (bool_decide _); cbn [negb]; [|discriminate].
  apply parse_fields_fuel. lia.
Qed.

(** The loop never raises IndexError: inside the loop every index it reads is
    at most [i + 2], which the loop condition keeps inside the list, and
    the value slice of a sized field is cut at the end of the list. *)
Lemma parse_fields_no_IndexError (fuel : nat) (hexlist : list string) (i : nat)
    (data : gmap string string) :
  parse_fields fuel hexlist i data <> Err IndexError.
Proof.
  revert i data. induction fuel as [|fuel IH]; intros i data;
    rewrite parse_fields_unfold; destruct (decide (i + 2 < length hexlist)) as [Hi|Hi];
    try discriminate.
  destruct (index_lt hexlist i) as [p ->]; [lia|].
  destruct (index_lt hexlist (i + 1)) as [q ->]; [lia|].
  destruct (index_lt hexlist (i + 1 + 1)) as [r Hr]; [lia|].
  cbn [mbind result_bind].
  repeat case_decide; try discriminate; try apply IH.
  destruct (Py.int16 q) as [n|e] eqn:En; cbn [mbind result_bind].
  - rewrite Hr. cbn [mbind result_bind]. apply IH.
  - apply int16_error in En as ->. discriminate.
Qed.

Lemma chunks2_join (value : list string) :
  Forall (fun t => String.length t = 2) value ->
  Py.chunks2 (Py.join value) = value.
Proof.
  induction 1 as [|t value Ht _ IH]; [reflexivity|].
  destruct t as [|a [|b [|c t]]]; try discriminate.
  cbn [Py.join]. rewrite !append_cons, append_nil_l. cbn [Py.chunks2].
  now rewrite IH.
Qed.

(** On a stream of complete fields placed between any tokens [pre] and two
    checksum tokens [cs], the loop yields the mapping the fields denote. *)
Lemma parse_fields_stream (fields : list string) (d d' : gmap string string) :
  field_stream fields d d' ->
  forall (pre cs : list string) (fuel : nat),
    length cs = 2 -> length fields <= fuel ->
    parse_fields fuel (pre ++ fields ++ cs) (length pre) d = Ok d'.
Proof.
  induction 1 as [d | cmd value rest d d' H1 H2 H3 H4 _ IH
                  | cmd rest d d' _ IH
                  | n cmd value rest d d' Hn Hv _ IH];
    intros pre cs fuel Hcs Hfuel; rewrite parse_fields_unfold.
  - rewrite decide_False; [reflexivity|]. rewrite length_app. cbn. lia.
  - rewrite decide_True by (rewrite !length_app; cbn [length]; lia).
    destruct fuel as [|fuel]; [cbn in Hfuel; lia|].
    cbn [app].
    rewrite (index_middle pre _ cmd (length pre)) by reflexivity. cbn [mbind result_bind].
    rewrite !decide_False by assumption.
    rewrite (cons_middle cmd pre), app_assoc.
    rewrite (index_middle (pre ++ [cmd]) _ value (length pre + 1))
      by (rewrite length_app; reflexivity).
    cbn [mbind result_bind].
    rewrite (cons_middle value (pre ++ [cmd])), app_assoc.
    replace (length pre + 1 + 1) with (length ((pre ++ [cmd]) ++ [value]))
      by (rewrite !length_app; reflexivity).
    apply IH; [exact Hcs | cbn in Hfuel; lia].
  - rewrite decide_True by (rewrite !length_app; cbn [length]; lia).
    destruct fuel as [|fuel]; [cbn in Hfuel; lia|].
    cbn [app].
    rewrite (index_middle pre _ RETURN_INVALID (length pre)) by reflexivity.
    cbn [mbind result_bind].
    rewrite decide_False by discriminate. rewrite decide_True by reflexivity.
    rewrite (cons_middle RETURN_INVALID pre), app_assoc.
    rewrite (index_middle (pre ++ [RETURN_INVALID]) _ cmd (length pre + 1))
      by (rewrite length_app; reflexivity).
    cbn [mbind result_bind].
    rewrite (cons_middle cmd (pre ++ [RETURN_INVALID])), app_assoc.
    replace (length pre + 1 + 1) with (length ((pre ++ [RETURN_INVALID]) ++ [cmd]))
      by (rewrite !length_app; reflexivity).
    apply IH; [exact Hcs | cbn in Hfuel; lia].
  - rewrite decide_True by (rewrite !length_app; cbn [length]; lia).
    destruct fuel as [|fuel]; [cbn in Hfuel; lia|].
    cbn [app].
    rewrite (index_middle pre _ RETURN_VALUE_SIZE (length pre)) by reflexivity.
    cbn [mbind result_bind].
    rewrite !(decide_False (P := RETURN_VALUE_SIZE = _)) by discriminate.
    rewrite decide_True by reflexivity.
    rewrite (cons_middle RETURN_VALUE_SIZE pre), app_assoc.
    rewrite (index_middle (pre ++ [RETURN_VALUE_SIZE]) _ n (length pre + 1))
      by (rewrite length_app; reflexivity).
    cbn [mbind result_bind]. rewrite Hn. cbn [mbind result_bind].
    rewrite Nat2N.id.
    rewrite (cons_middle n (pre ++ [RETURN_VALUE_SIZE])), app_assoc.
    rewrite (index_middle ((pre ++ [RETURN_VALUE_SIZE]) ++ [n]) _ cmd
               (length pre + 1 + 1))
      by (rewrite !length_app; reflexivity).
    cbn [mbind result_bind].
    rewrite (cons_middle cmd ((pre ++ [RETURN_VALUE_SIZE]) ++ [n])), app_assoc.
    set (pre' := ((pre ++ [RETURN_VALUE_SIZE]) ++ [n]) ++ [cmd]).
    assert (length pre' = length pre + 1 + 1 + 1) as Hpre'
      by (unfold pre'; rewrite !length_app; reflexivity).
    assert (Py.slice (length pre + 1 + 1 + 1) (length pre + 1 + 1 + 1 + length value)
              (pre' ++ (value ++ rest) ++ cs) = value) as ->.
    { unfold Py.slice. rewrite <- Hpre', drop_app_length.
      replace (length pre' + length value - length pre') with (length value) by lia.
      rewrite <- app_assoc. apply take_app_length. }
    rewrite chunks2_join by exact Hv.
    rewrite <- (app_assoc value rest cs), (app_assoc pre' value).
    replace (length pre + 1 + 1 + length value + 1) with (length (pre' ++ value))
      by (rewrite length_app; lia).
    apply IH; [exact Hcs|].
    cbn [length] in Hfuel. rewrite length_app in Hfuel. lia.
Qed.

(** ** Responses that differ in their credential blocks *)

Lemma parse_response_stream (n1 n2 : string) (id_block pw_block fields cs : list string)
    (d : gmap string string) :
  Py.int16 n1 = Ok (N.of_nat (length id_block)) ->
  Py.int16 n2 = Ok (N.of_nat (length pw_block)) ->
  field_stream fields ∅ d ->
  length cs = 2 ->
  _parse_response ("FD" :: "FD" :: "02" :: n1 :: id_block ++ n2 :: pw_block
                   ++ FUNC_RESULT :: fields ++ cs) = Ok d.
Proof.
  intros H1 H2 Hf Hcs. unfold _parse_response.
  rewrite (parse_header_skips n1 n2 id_block _ _ H1 H2), Nat2N.id.
  cbn [mbind result_bind].
  set (pre := "FD" :: "FD" :: "02" :: n1 :: id_block ++ n2 :: pw_block).
  assert (length pre = 5 + length id_block + length pw_block) as Hpre.
  { unfold pre. cbn [length]. rewrite length_app. cbn [length]. lia. }
  assert ("FD" :: "FD" :: "02" :: n1 :: id_block ++ n2 :: pw_block
          ++ FUNC_RESULT :: fields ++ cs
          = pre ++ FUNC_RESULT :: fields ++ cs) as ->.
  { unfold pre. cbn [app]. do 4 f_equal. rewrite <- app_assoc. reflexivity. }
  rewrite (index_middle pre _ FUNC_RESULT) by lia.
  cbn [mbind result_bind].
  rewrite bool_decide_eq_true_2 by reflexivity. cbn [negb].
  rewrite (cons_middle FUNC_RESULT pre), app_assoc.
  replace (5 + length id_block + length pw_block + 1)
    with (length (pre ++ [FUNC_RESULT])) by (rewrite length_app; cbn [length]; lia).
  rewrite (parse_fields_stream fields ∅ d Hf); [reflexivity | exact Hcs |].
  rewrite !length_app. lia.
Qed.

(** C10. Two responses with the same prefix, protocol type, declared block
    lengths, result function and field stream, whatever the contents of
    their id and password blocks and whatever their checksum tokens, are
    parsed to the same mapping: the one the field stream denotes. *)
Theorem parse_ignores_credentials
    (n1 n2 : string) (id1 id2 pw1 pw2 fields cs1 cs2 : list string)
    (d : gmap string string) :
  Py.int16 n1 = Ok (N.of_nat (length id1)) -> length id2 = length id1 ->
  Py.int16 n2 = Ok (N.of_nat (length pw1)) -> length pw2 = length pw1 ->
  field_stream fields ∅ d ->
  length cs1 = 2 -> length cs2 = 2 ->
  _parse_response ("FD" :: "FD" :: "02" :: n1 :: id1 ++ n2 :: pw1
                   ++ FUNC_RESULT :: fields ++ cs1) = Ok d /\
  _parse_response ("FD" :: "FD" :: "02" :: n1 :: id2 ++ n2 :: pw2
                   ++ FUNC_RESULT :: fields ++ cs2) = Ok d.
Proof.
  intros H1 Hid H2 Hpw Hf Hcs1 Hcs2. split.
  - now apply parse_response_stream.
  - apply parse_response_stream; try assumption.
    + now rewrite Hid.
    + now rewrite Hpw.
Qed.

(** ** The state translator *)


Lemma odict_getitem_error (d : Py.odict) (k : string) (e : exn) :
  Py.odict_getitem d k = Err e -> e = KeyError k.
Proof.
  induction d as [|[k' v] d IH]; cbn; [now intros [= <-]|].
  case_decide; [discriminate | exact IH].
Qed.

(** The four [try] blocks, one by one: only the speed block can raise. *)
Lemma translate_response_eq (data : gmap string string) :
  _translate_response data
  = (speed ← match data !! COMMAND_SPEED with
             | Some v => n ← Py.int16 v; mret (Py.format_02 n)
             | None => Ok "00"
             end;
     mret {| st_is_on := match data !! COMMAND_ON_OFF with
                         | Some v => bool_decide (v = POWER_ON)
                         | None => false
                         end;
             st_speed := speed;
             st_oscillating :=
               match data !! COMMAND_DIRECTION with
               | Some v => match Py.odict_getitem DIRECTIONS v with
                           | Ok dir => bool_decide (dir = DIRECTION_ALTERNATING)
                           | Err _ => true
                           end
               | None => true
               end;
             st_direction :=
               match data !! COMMAND_DIRECTION with
               | Some v => match Py.odict_getitem DIRECTIONS v with
                           | Ok dir => Some dir
                           | Err _ => None
                           end
               | None => None
               end;
             st_mode := match data !! COMMAND_MODE with
                        | Some v => match MODES !! v with
                                    | Some m => m
                                    | None => PRESET_MODE_AUTO
                                    end
                        | None => PRESET_MODE_AUTO
                        end |}).
Proof.
  unfold _translate_response, Py.getitem.
  generalize MODES as modes. intros modes.
  destruct (data !! COMMAND_ON_OFF) as [v1|]; cbn;
    (destruct (data !! COMMAND_SPEED) as [v2|]; cbn;
     [destruct (Py.int16 v2) as [n|e] eqn:En; cbn;
      [|apply int16_error in En as ->; reflexivity]|]);
    (destruct (data !! COMMAND_DIRECTION) as [v3|]; cbn;
     [destruct (Py.odict_getitem DIRECTIONS v3) as [dir|e] eqn:Ed; cbn;
      [|apply odict_getitem_error in Ed as ->; cbn]|]);
    (destruct (data !! COMMAND_MODE) as [v4|]; cbn;
     [destruct (modes !! v4) as [m|]; cbn|]);
    reflexivity.
Qed.

Lemma format_02_byte (b : byte) :
  Py.format_02 (Byte.to_N b) = padded_decimal (Byte.to_N b).
Proof. destruct b; reflexivity. Qed.

(** C5, at the failing input. The device answers the speed command with the
    invalid-command marker; the response passes the checksum, the parser
    maps the speed command to the empty string, and the translator raises
    ValueError on that mapping. *)
Theorem invalid_speed_raises_ValueError :
  _verify_checksum Sample.response_invalid_speed = Ok true /\
  _parse_response Sample.response_invalid_speed
  = Ok {[ COMMAND_SPEED := EmptyString ]} /\
  _translate_response {[ COMMAND_SPEED := EmptyString ]}
  = Err (ValueError "invalid literal for int() with base 16").
Proof. split; [|split]; vm_compute; reflexivity. Qed.

(** C6, as amended. A mapping without the on/off, direction and mode fields
    is translated to is_on false, direction None, oscillating true and mode
    auto; the speed is 00 when the speed field is absent, and for a speed
    field holding the token of a byte it is the byte's value in decimal with
    at least two digits: two digits below 100, three from 100 on. *)
Theorem translate_defaults (data : gmap string string) :
  data !! COMMAND_ON_OFF = None ->
  data !! COMMAND_DIRECTION = None ->
  data !! COMMAND_MODE = None ->
  (data !! COMMAND_SPEED = None ->
   _translate_response data
   = Ok {| st_is_on := false; st_speed := "00"; st_oscillating := true;
           st_direction := None; st_mode := PRESET_MODE_AUTO |}) /\
  (forall b : byte,
     data !! COMMAND_SPEED = Some (token b) ->
     _translate_response data
     = Ok {| st_is_on := false; st_speed := padded_decimal (Byte.to_N b);
             st_oscillating := true; st_direction := None;
             st_mode := PRESET_MODE_AUTO |}).
Proof.
  intros Hon Hdir Hmode. split.
  - intros Hspeed. rewrite translate_response_eq, Hon, Hdir, Hmode, Hspeed.
    reflexivity.
  - intros b Hspeed. rewrite translate_response_eq, Hon, Hdir, Hmode, Hspeed.
    rewrite int16_token. cbn [mbind result_bind mret result_ret].
    now rewrite format_02_byte.
Qed.


(** ** Validation before the exchange *)

Lemma list_index_elem (l : list string) (x : string) :
  x ∈ l -> exists k, Py.list_index l x = Ok k /\ k < length l.
Proof.
  induction l as [|y l IH]; [intros H; inversion H|].
  intros H. cbn. case_decide as Hy; [exists 0; split; [reflexivity | cbn; lia]|].
  apply elem_of_cons in H as [->|H]; [congruence|].
  destruct (IH H) as (k & -> & Hk). exists (S k). split; [reflexivity | cbn; lia].
Qed.

(** C8. A speed outside [FAN_SPEEDS] makes [speed] raise ValueError and leaves
    the network untouched: nothing is sent and nothing is received. The same
    holds for [direction] with a value that is neither a key nor a value of
    [DIRECTIONS]; a key or a value passes the check, and the command is sent
    with a key of [DIRECTIONS]. *)
Theorem validation_before_io (self : SikuV2Api) (w : world) :
  (forall s, s ∉ FAN_SPEEDS ->
     speed self s w = (Err (ValueError ("Invalid fan speed: " +:+ s)), w)) /\
  (forall d, d ∉ Py.keys DIRECTIONS -> d ∉ Py.values DIRECTIONS ->
     direction self d w = (Err (ValueError ("Invalid fan direction: " +:+ d)), w)) /\
  (forall d, d ∈ Py.keys DIRECTIONS \/ d ∈ Py.values DIRECTIONS ->
     exists code, code ∈ Py.keys DIRECTIONS /\
       direction self d w
       = (_ ← _send_command self FUNC_READ_WRITE
                (Py.upper (COMMAND_DIRECTION +:+ code));
          status self) w).
Proof.
  split; [|split].
  - intros s Hs. unfold speed. now rewrite decide_True.
  - intros d Hk Hv. unfold direction.
    rewrite (decide_False (P := d ∈ Py.values DIRECTIONS)) by exact Hv.
    unfold mbind at 1, IO_bind, lift at 1. cbn [mret result_ret].
    now rewrite decide_True.
  - intros d Hd. unfold direction.
    destruct (decide (d ∈ Py.values DIRECTIONS)) as [Hv|Hv].
    + destruct (list_index_elem _ _ Hv) as (k & Hk & Hlt).
      rewrite Hk. cbn [mbind result_bind].
      unfold Py.values, Py.keys in *. rewrite length_map in Hlt.
      destruct (index_lt (map fst DIRECTIONS) k) as [code Hcode];
        [now rewrite length_map|].
      rewrite Hcode. exists code.
      assert (code ∈ map fst DIRECTIONS) as Hin.
      { unfold Py.index in Hcode.
        destruct (map fst DIRECTIONS !! k) as [c|] eqn:E; [|discriminate].
        injection Hcode as <-. eapply list_elem_of_lookup_2, E. }
      split; [exact Hin|].
      unfold mbind at 1, IO_bind, lift at 1.
      now rewrite decide_False by (intros H; apply H, Hin).
    + destruct Hd as [Hk|Hv']; [|contradiction].
      exists d. split; [exact Hk|].
      unfold mbind at 1, IO_bind, lift at 1. cbn [mret result_ret].
      now rewrite decide_False by (intros H; apply H, Hk).
Qed.

(** ** Further properties of the checksum unit *)

Lemma token_inj (b1 b2 : byte) : token b1 = token b2 -> b1 = b2.
Proof.
  intros H. apply (f_equal Py.int16) in H. rewrite !int16_token in H.
  injection H as H. apply (f_equal Byte.of_N) in H.
  rewrite !Byte.of_to_N in H. now injection H.
Qed.

Lemma hexU_inj (xs ys : list byte) : hexU xs = hexU ys -> xs = ys.
Proof.
  intros H. apply (f_equal Py.fromhex) in H. rewrite !fromhex_hexU in H.
  now injection H.
Qed.

Lemma join_chunks2_step (a b : ascii) (s : string) :
  Py.join (Py.chunks2 (String a (String b s)))
  = String a (String b (Py.join (Py.chunks2 s))).
Proof. reflexivity. Qed.

Lemma string_pair_ind (P : string -> Prop) :
  P EmptyString ->
  (forall a, P (String a EmptyString)) ->
  (forall a b s, P s -> P (String a (String b s))) ->
  forall s, P s.
Proof.
  intros H0 H1 H2.
  assert (forall s, P s /\ forall a, P (String a s)) as H.
  { induction s as [|b s [IH1 IH2]]; split; auto. }
  intros s. apply H.
Qed.

(** X1. Cutting a string into a hex list loses nothing: joining the chunks
    of [_hexlist] gives the string back, whatever its length or content. *)
Theorem hexlist_join (hexstr : string) : Py.join (_hexlist hexstr) = hexstr.
Proof.
  unfold _hexlist. induction hexstr as [| a | a b s IH] using string_pair_ind.
  - reflexivity.
  - reflexivity.
  - rewrite join_chunks2_step. now rewrite IH.
Qed.

(** X2. On the hex string of any byte sequence, [_checksum] returns without
    raising, and its result is the hex string of exactly two bytes. *)
Theorem checksum_returns_two_bytes (bs : list byte) :
  exists c1 c2, _checksum (hexU bs) = Ok (hexU [c1; c2]).
Proof. apply checksum_two_bytes. Qed.

(** X3. When the bytes after the leading two sum to less than 0x10000, the
    checksum is that sum, low byte first and high byte second. *)
Theorem checksum_low_byte_first (bs : list byte) :
  (byte_sum (drop 2 bs) < 65536)%N ->
  _checksum (hexU bs)
  = Ok (hexU [Py.byte_of_N (byte_sum (drop 2 bs) mod 256);
              Py.byte_of_N (byte_sum (drop 2 bs) / 256)]).
Proof.
  intros Hn. rewrite checksum_hexU, swap_bytes_in_range by exact Hn.
  now rewrite !hexU_cons, hexU_nil, append_nil_r.
Qed.

(** X4. The two leading bytes of a packet do not enter the checksum. *)
Theorem checksum_ignores_prefix (a b a' b' : byte) (rest : list byte) :
  _checksum (hexU (a :: b :: rest)) = _checksum (hexU (a' :: b' :: rest)).
Proof. now rewrite !checksum_hexU. Qed.

Lemma swap_bytes_in_range_inj (n m : N) :
  (n < 65536)%N -> (m < 65536)%N ->
  swap_bytes (Py.format_04X n) = swap_bytes (Py.format_04X m) -> n = m.
Proof.
  intros Hn Hm H. rewrite !swap_bytes_in_range in H by assumption.
  rewrite <- !hexU_single, <- !hexU_app in H. apply hexU_inj in H.
  injection H as Hlo Hhi.
  apply (f_equal Byte.to_N) in Hlo, Hhi.
  rewrite !to_N_byte_of_N in Hlo, Hhi
    by (try (apply N.mod_lt; lia); apply N.Div0.div_lt_upper_bound; lia).
  rewrite (N.div_mod n 256), (N.div_mod m 256) by lia. lia.
Qed.

(** X5. Below 0x10000 the checksum tells apart two packets that differ in
    one byte after the leading two: if [c1 c2] is the checksum of the first,
    the second followed by [c1 c2] fails [_verify_checksum]. *)
Theorem verify_detects_changed_byte
    (pre post : list byte) (b b' c1 c2 : byte) :
  2 <= length pre ->
  b <> b' ->
  (byte_sum (drop 2 (pre ++ b :: post)) < 65536)%N ->
  (byte_sum (drop 2 (pre ++ b' :: post)) < 65536)%N ->
  _checksum (hexU (pre ++ b :: post)) = Ok (hexU [c1; c2]) ->
  _verify_checksum (map token ((pre ++ b' :: post) ++ [c1; c2])) = Ok false.
Proof.
  intros Hpre Hb Hn Hn' Hc.
  destruct (checksum_two_bytes (pre ++ b' :: post)) as (d1 & d2 & Hd).
  unfold _verify_checksum.
  rewrite map_app. cbn [map].
  rewrite index_from_end_2, index_from_end_1.
  rewrite length_app. cbn [length].
  replace (length (map token (pre ++ b' :: post)) + 2 - 2)
    with (length (map token (pre ++ b' :: post))) by lia.
  rewrite take_app_length, join_tokens, Hd.
  cbn [mbind result_bind mret result_ret].
  rewrite <- !hexU_single, <- hexU_app. cbn [app].
  rewrite bool_decide_eq_false_2; [reflexivity|].
  intros E. apply hexU_inj in E.
  rewrite E, <- Hc, !checksum_hexU in Hd. injection Hd as Hd.
  apply swap_bytes_in_range_inj in Hd; [|assumption..].
  rewrite !drop_app_le, !byte_sum_app, !byte_sum_cons in Hd by exact Hpre.
  assert (Byte.to_N b = Byte.to_N b') as Hbb by lia.
  apply Hb. apply (f_equal Byte.of_N) in Hbb.
  rewrite !Byte.of_to_N in Hbb. now injection Hbb.
Qed.

(** X6. [_verify_checksum] compares exactly: on the tokens of a byte
    sequence followed by two bytes, it returns true if and only if the two
    bytes are the checksum of the sequence. *)
Theorem verify_checksum_exact (bs : list byte) (d1 d2 : byte) :
  exists c1 c2 ok,
    _checksum (hexU bs) = Ok (hexU [c1; c2]) /\
    _verify_checksum (map token (bs ++ [d1; d2])) = Ok ok /\
    (ok = true <-> d1 = c1 /\ d2 = c2).
Proof.
  destruct (checksum_two_bytes bs) as (c1 & c2 & Hc).
  exists c1, c2, (bool_decide (hexU [c1; c2] = hexU [d1; d2])).
  split; [exact Hc|]. split.
  - unfold _verify_checksum.
    rewrite map_app. cbn [map].
    rewrite index_from_end_2, index_from_end_1.
    rewrite length_app. cbn [length].
    replace (length (map token bs) + 2 - 2) with (length (map token bs)) by lia.
    rewrite take_app_length, join_tokens, Hc.
    cbn [mbind result_bind mret result_ret].
    now rewrite <- !hexU_single, <- hexU_app.
  - rewrite bool_decide_eq_true. split.
    + intros E. apply hexU_inj in E. injection E as -> ->. auto.
    + intros [-> ->]. reflexivity.
Qed.

(** X7. A hex list of fewer than two tokens makes [_verify_checksum] raise
    IndexError, whatever the tokens. *)
Theorem verify_checksum_short (hexlist : list string) :
  length hexlist < 2 -> _verify_checksum hexlist = Err IndexError.
Proof.
  intros H. destruct hexlist as [|t [|u hexlist]]; cbn in H; try lia;
    reflexivity.
Qed.

(** ** Further properties of one exchange *)

Lemma send_command_unfold (self : SikuV2Api) (func data : string)
    (wire : list byte) (w : world) :
  encode self func data = Ok wire ->
  _send_command self func data w
  = match inbox w with
    | [] => (Err socket_error,
             World [] (((host self, port self), wire) :: sent w))
    | Ok d :: rest =>
        let w' := World rest (((host self, port self), wire) :: sent w) in
        match _verify_checksum (decode (take 256 d)) with
        | Ok true => (Ok (decode (take 256 d)), w')
        | Ok false => (Err (Exception_ "Checksum error"), w')
        | Err e => (Err e, w')
        end
    | Err e :: rest =>
        if sendto_raises e then (Err e, World rest (sent w))
        else (Err e, World rest (((host self, port self), wire) :: sent w))
    end.
Proof.
  unfold encode, _send_command. intros H.
  destruct (_build_packet self func data) as [packet_str|]; [|discriminate].
  cbn in H. unfold mbind, IO_bind, lift at 1 2. cbn. rewrite H. cbn.
  unfold sendto, recvfrom. cbn.
  destruct (inbox w) as [|[d|e] rest]; cbn; try reflexivity.
  - unfold decode. destruct (_verify_checksum _) as [[]|]; reflexivity.
  - destruct (sendto_raises e); reflexivity.
Qed.

Lemma send_command_not_encoded (self : SikuV2Api) (func data : string)
    (e : exn) (w : world) :
  encode self func data = Err e ->
  _send_command self func data w = (Err e, w).
Proof.
  unfold encode, _send_command. intros H.
  destruct (_build_packet self func data) as [packet_str|e'].
  - cbn in H. unfold mbind, IO_bind, lift at 1 2. cbn. now rewrite H.
  - cbn in H. injection H as ->. reflexivity.
Qed.

Lemma encode_cases (self : SikuV2Api) (func data : string) :
  (exists wire, encode self func data = Ok wire) \/
  (exists e, encode self func data = Err e).
Proof. destruct (encode self func data); eauto. Qed.

(** X8. Whenever [_send_command] returns a hex list, that list passes
    [_verify_checksum] and has at most 256 tokens, exactly one datagram was
    sent (to the host and port of the client), and exactly one incoming
    datagram was taken. *)
Theorem send_command_returns_verified
    (self : SikuV2Api) (func data : string) (w w' : world)
    (hexlist : list string) :
  _send_command self func data w = (Ok hexlist, w') ->
  _verify_checksum hexlist = Ok true /\
  length hexlist <= 256 /\
  (exists wire, encode self func data = Ok wire /\
     sent w' = ((host self, port self), wire) :: sent w) /\
  (exists d, inbox w = Ok d :: inbox w').
Proof.
  intros H. destruct (encode_cases self func data) as [[wire He]|[e He]].
  - rewrite (send_command_unfold _ _ _ _ _ He) in H.
    destruct (inbox w) as [|[d|e] rest]; try (injection H; discriminate);
      [|destruct (sendto_raises e); injection H; discriminate].
    cbv zeta in H.
    destruct (_verify_checksum (decode (take 256 d))) as [[]|] eqn:Hv;
      try (injection H; discriminate).
    injection H as <- <-. cbn [sent inbox]. repeat split.
    + exact Hv.
    + rewrite decode_tokens, length_map, length_take. lia.
    + eauto.
    + eauto.
  - rewrite (send_command_not_encoded _ _ _ _ _ He) in H. discriminate.
Qed.

(** X9. A datagram of fewer than two bytes makes [_send_command] raise
    IndexError, not the checksum error. *)
Theorem send_command_short_datagram
    (self : SikuV2Api) (func data : string) (wire d : list byte)
    (rest : list (result (list byte))) (w : world) :
  encode self func data = Ok wire ->
  inbox w = Ok d :: rest ->
  length d < 2 ->
  _send_command self func data w
  = (Err IndexError, World rest (((host self, port self), wire) :: sent w)).
Proof.
  intros He Hin Hd. rewrite (send_command_unfold _ _ _ _ _ He), Hin.
  cbv zeta. rewrite verify_checksum_short; [reflexivity|].
  rewrite decode_tokens, length_map, length_take. lia.
Qed.

(** X10. One attempt, no retry. When [sendto] raises, [_send_command]
    surfaces its exception and nothing is sent; when the datagram leaves and
    nothing arrives, it raises the socket error after that one datagram; when
    the response fails the checksum, it raises the checksum error. Whatever
    the network does, at most one datagram is sent and at most one entry of
    the network's queue is taken. *)
Theorem send_command_single_attempt
    (self : SikuV2Api) (func data : string) (wire : list byte) (w : world) :
  encode self func data = Ok wire ->
  (forall e rest,
     inbox w = Err e :: rest -> sendto_raises e = true ->
     _send_command self func data w = (Err e, World rest (sent w))) /\
  (inbox w = [] ->
   _send_command self func data w
   = (Err socket_error,
      World [] (((host self, port self), wire) :: sent w))) /\
  (forall d rest,
     inbox w = Ok d :: rest ->
     _verify_checksum (decode (take 256 d)) = Ok false ->
     _send_command self func data w
     = (Err (Exception_ "Checksum error"),
        World rest (((host self, port self), wire) :: sent w))) /\
  (let w' := snd (_send_command self func data w) in
   (sent w' = sent w \/
    sent w' = ((host self, port self), wire) :: sent w) /\
   (inbox w' = inbox w \/ exists r, inbox w = r :: inbox w')).
Proof.
  intros He. rewrite (send_command_unfold _ _ _ _ _ He).
  split; [|split; [|split]].
  - intros e rest -> ->. reflexivity.
  - intros ->. reflexivity.
  - intros d rest -> Hv. cbv zeta. now rewrite Hv.
  - cbv zeta. destruct (inbox w) as [|[d|e] rest].
    + cbn. auto.
    + destruct (_verify_checksum (decode (take 256 d))) as [[]|]; cbn; eauto.
    + destruct (sendto_raises e); cbn; eauto.
Qed.

(** ** A password of 256 to 4095 characters *)

Lemma upper_hex_digit_facts (c : ascii) :
  upper_hex_digit c ->
  Py.is_space c = false /\ (exists v, Py.hexval c = Some v) /\
  Py.upper_char c = c.
Proof.
  intros (d & Hd & ->).
  assert (d = 0 \/ d = 1 \/ d = 2 \/ d = 3 \/ d = 4 \/ d = 5 \/ d = 6 \/ d = 7 \/
          d = 8 \/ d = 9 \/ d = 10 \/ d = 11 \/ d = 12 \/ d = 13 \/ d = 14 \/
          d = 15)%N as Hcases by lia.
  clear Hd.
  repeat (destruct Hcases as [->|Hcases]); try subst d;
    (split; [reflexivity | split; [eexists; reflexivity | reflexivity]]).
Qed.

Lemma upper_lower_digit (d : N) :
  (d < 16)%N -> Py.upper_char (Py.hexdigit false d) = Py.hexdigit true d.
Proof.
  intros Hd.
  assert (d = 0 \/ d = 1 \/ d = 2 \/ d = 3 \/ d = 4 \/ d = 5 \/ d = 6 \/ d = 7 \/
          d = 8 \/ d = 9 \/ d = 10 \/ d = 11 \/ d = 12 \/ d = 13 \/ d = 14 \/
          d = 15)%N as Hcases by lia.
  clear Hd.
  repeat (destruct Hcases as [->|Hcases]); try subst d; reflexivity.
Qed.

Lemma all_chars_token (b : byte) : all_chars upper_hex_digit (token b).
Proof.
  unfold token, Py.hex_of_byte. cbn. repeat split.
  - exists (Byte.to_N b / 16)%N. split.
    + pose proof (Byte.to_N_bounded b). apply N.Div0.div_lt_upper_bound. lia.
    + apply upper_lower_digit.
      pose proof (Byte.to_N_bounded b). apply N.Div0.div_lt_upper_bound. lia.
  - exists (Byte.to_N b mod 16)%N. split.
    + apply N.mod_lt. lia.
    + apply upper_lower_digit. apply N.mod_lt. lia.
Qed.

Lemma all_chars_hexU (bs : list byte) : all_chars upper_hex_digit (hexU bs).
Proof.
  induction bs as [|b bs IH]; [exact I|].
  rewrite hexU_cons. apply all_chars_app; [apply all_chars_token | exact IH].
Qed.

Lemma digits_lower_hex (fuel : nat) (n : N) (acc : string) :
  all_chars upper_hex_digit (Py.upper acc) ->
  all_chars upper_hex_digit (Py.upper (Py.digits 16 false fuel n acc)).
Proof.
  revert n acc. induction fuel as [|fuel IH]; intros n acc Hacc; cbn;
    [exact Hacc|].
  assert (all_chars upper_hex_digit
            (Py.upper (String (Py.hexdigit false (n mod 16)) acc))) as H.
  { cbn. split; [|exact Hacc]. exists (n mod 16)%N.
    split; [apply N.mod_lt; lia | apply upper_lower_digit, N.mod_lt; lia]. }
  destruct (n / 16 =? 0)%N; [exact H | now apply IH].
Qed.

Lemma all_chars_upper_zeros (k : nat) :
  all_chars upper_hex_digit (Py.upper (Py.zeros k)).
Proof. induction k; cbn; auto using upper_hex_digit_zero. Qed.

Lemma format_02x_chars (n : N) :
  all_chars upper_hex_digit (Py.upper (Py.format_02x n)).
Proof.
  unfold Py.format_02x, Py.zfill, Py.to_base. rewrite upper_app.
  apply all_chars_app; [apply all_chars_upper_zeros|].
  now apply digits_lower_hex.
Qed.

Lemma length_upper (s : string) : String.length (Py.upper s) = String.length s.
Proof. induction s as [|c s IH]; cbn; [reflexivity | now rewrite IH]. Qed.

Lemma length_hexU (bs : list byte) : String.length (hexU bs) = 2 * length bs.
Proof.
  induction bs as [|b bs IH]; [reflexivity|].
  rewrite hexU_cons, length_append, token_length, IH. cbn [length]. lia.
Qed.

(** From 256 to 4095 the length is written with three digits. *)
Lemma format_02x_three_digits (n : N) :
  (256 <= n < 4096)%N -> String.length (Py.format_02x n) = 3.
Proof.
  intros [Hlo Hhi].
  pose proof (all_below_spec
    (fun n => (n <? 256)%N || Nat.eqb (String.length (Py.format_02x n)) 3)
    4096) as H.
  specialize (H ltac:(vm_compute; reflexivity) n Hhi).
  apply orb_true_iff in H as [H|H].
  - apply N.ltb_lt in H. lia.
  - now apply Nat.eqb_eq in H.
Qed.

(** Hexadecimal digits in odd number are refused by [bytes.fromhex]. *)
Lemma fromhex_odd (s : string) :
  all_chars upper_hex_digit s ->
  Nat.Odd (String.length s) ->
  Py.fromhex s = Err (ValueError "non-hexadecimal number found in fromhex() arg").
Proof.
  induction s as [| a | a b s IH] using string_pair_ind.
  - intros _ [k Hk]. cbn in Hk. lia.
  - intros [Ha _] _. destruct (upper_hex_digit_facts a Ha) as (Hs & _ & _).
    cbn. now rewrite Hs.
  - intros (Ha & Hb & Hs) [k Hk]. cbn in Hk.
    destruct (upper_hex_digit_facts a Ha) as (Hsa & (va & Hva) & _).
    destruct (upper_hex_digit_facts b Hb) as (_ & (vb & Hvb) & _).
    cbn. rewrite Hsa, Hva, Hvb. rewrite IH; [reflexivity | exact Hs|].
    exists (k - 1). lia.
Qed.

Lemma int16_hex_chars (s : string) :
  s <> EmptyString -> all_chars upper_hex_digit s ->
  exists n, Py.int16 s = Ok n.
Proof.
  intros Hne Hs. unfold Py.int16. destruct s as [|c s]; [congruence|].
  assert (forall t acc, all_chars upper_hex_digit t ->
            exists n, Py.int16_digits t acc = Some n) as Hd.
  { induction t as [|x t IH]; intros acc Ht; cbn; [eauto|].
    destruct Ht as [Hx Ht].
    destruct (upper_hex_digit_facts x Hx) as (_ & (v & ->) & _). now apply IH. }
  destruct (Hd (String c s) 0%N Hs) as [n ->]. eauto.
Qed.

Lemma chunks2_hex_chars (s : string) :
  all_chars upper_hex_digit s ->
  Forall (fun t => exists n, Py.int16 t = Ok n) (Py.chunks2 s).
Proof.
  induction s as [| a | a b s IH] using string_pair_ind; intros Hs.
  - constructor.
  - constructor; [|constructor].
    apply int16_hex_chars; [discriminate | exact Hs].
  - destruct Hs as (Ha & Hb & Hs). cbn [Py.chunks2]. constructor; [|auto].
    apply int16_hex_chars; [discriminate | cbn; auto].
Qed.

Lemma sum_hex_parsed (l : list string) (acc : N) :
  Forall (fun t => exists n, Py.int16 t = Ok n) l ->
  exists n, sum_hex l acc = Ok n.
Proof.
  intros H. revert acc. induction H as [|t l [n Hn] _ IH]; intros acc.
  - cbn. eauto.
  - cbn [sum_hex]. rewrite Hn. cbn [mbind result_bind]. apply IH.
Qed.

Lemma checksum_hex_chars (s : string) :
  all_chars upper_hex_digit s ->
  exists c1 c2, _checksum s = Ok (hexU [c1; c2]).
Proof.
  intros Hs. unfold _checksum, _hexlist.
  destruct (sum_hex_parsed (drop 2 (Py.chunks2 s)) 0) as [n ->].
  { apply Forall_drop. now apply chunks2_hex_chars. }
  cbn [mbind result_bind mret result_ret].
  destruct (swap_bytes_two_tokens n) as (c1 & c2 & ->).
  exists c1, c2. now rewrite !hexU_cons, hexU_nil, append_nil_r.
Qed.

(** X11. A password of 256 to 4095 characters is never sent: its length is
    written with three hexadecimal digits, the packet has an odd number of
    digits, [bytes.fromhex] raises ValueError, and the network is left
    untouched. *)
Theorem long_password_is_not_sent
    (self : SikuV2Api) (f : byte) (payload idb pwb : list byte) (w : world) :
  Py.encode_utf8 (idnum self) = Ok idb ->
  Py.encode_utf8 (password self) = Ok pwb ->
  256 <= length (password self) < 4096 ->
  _send_command self (token f) (hexU payload) w
  = (Err (ValueError "non-hexadecimal number found in fromhex() arg"), w).
Proof.
  intros Hid Hpw Hlen. apply send_command_not_encoded.
  unfold encode, _build_packet, _login_packet. rewrite Hid, Hpw.
  cbn [mbind result_bind mret result_ret].
  set (size := Py.upper (Py.format_02x (N.of_nat (length (password self))))).
  assert (Py.upper
            (Py.upper (PACKET_PREFIX +:+ PACKET_PROTOCOL_TYPE +:+ PACKET_SIZE_ID
                       +:+ Py.hex idb
                       +:+ Py.format_02x (N.of_nat (length (password self)))
                       +:+ Py.hex pwb)
             +:+ token f +:+ hexU payload)
          = hexU [xfd; xfd; x02; x10] +:+ hexU idb +:+ size +:+ hexU pwb
            +:+ token f +:+ hexU payload) as ->.
  { rewrite !upper_app, !upper_idem, upper_token, upper_hexU, !append_assoc.
    reflexivity. }
  set (packet := hexU [xfd; xfd; x02; x10] +:+ hexU idb +:+ size +:+ hexU pwb
                 +:+ token f +:+ hexU payload).
  assert (all_chars upper_hex_digit packet) as Hchars.
  { unfold packet, size.
    repeat (apply all_chars_app;
            [first [apply all_chars_hexU | apply all_chars_token
                   | apply format_02x_chars]|]).
    apply all_chars_hexU. }
  assert (String.length size = 3) as Hsize.
  { unfold size. rewrite length_upper. apply format_02x_three_digits. lia. }
  destruct (checksum_hex_chars packet Hchars) as (c1 & c2 & ->).
  cbn [mbind result_bind]. apply fromhex_odd.
  - apply all_chars_app; [exact Hchars | apply all_chars_hexU].
  - unfold packet.
    rewrite !length_append, !length_hexU, token_length, Hsize. cbn [length].
    exists (4 + length idb + 1 + length pwb + 1 + length payload + 2). lia.
Qed.

(** Hexadecimal digits in even number are the hex form of bytes. *)
Lemma hex_chars_even (s : string) :
  all_chars upper_hex_digit s ->
  Nat.Even (String.length s) ->
  exists bs, s = hexU bs.
Proof.
  induction s as [| a | a b s IH] using string_pair_ind.
  - intros _ _. now exists [].
  - intros _ [k Hk]. cbn in Hk. lia.
  - intros (Ha & Hb & Hs) [k Hk]. cbn in Hk.
    destruct IH as [bs ->]; [exact Hs | exists (k - 1); lia |].
    destruct (token_of_digits a b Ha Hb) as [x Hx].
    exists (x :: bs). rewrite hexU_cons, Hx. reflexivity.
Qed.

(** [bytes.fromhex] on hexadecimal digits: bytes, or the ValueError of an odd
    number of digits. *)
Lemma fromhex_hex_chars (s : string) :
  all_chars upper_hex_digit s ->
  (exists bs, s = hexU bs /\ Py.fromhex s = Ok bs) \/
  (Nat.Odd (String.length s) /\
   Py.fromhex s = Err (ValueError "non-hexadecimal number found in fromhex() arg")).
Proof.
  intros Hs. destruct (Nat.Even_or_Odd (String.length s)) as [He|Ho].
  - left. destruct (hex_chars_even s Hs He) as [bs ->].
    exists bs. split; [reflexivity | apply fromhex_hexU].
  - right. split; [exact Ho | now apply fromhex_odd].
Qed.

(** The string that [_send_command] hands to [bytes.fromhex], whatever the
    lengths of the id and of the password. *)
Lemma encode_fromhex (self : SikuV2Api) (f : byte) (payload idb pwb : list byte) :
  Py.encode_utf8 (idnum self) = Ok idb ->
  Py.encode_utf8 (password self) = Ok pwb ->
  exists c1 c2,
    encode self (token f) (hexU payload)
    = Py.fromhex
        ((hexU [xfd; xfd; x02; x10] +:+ hexU idb
          +:+ Py.upper (Py.format_02x (N.of_nat (length (password self))))
          +:+ hexU pwb +:+ token f +:+ hexU payload)
         +:+ hexU [c1; c2]).
Proof.
  intros Hid Hpw.
  unfold encode, _build_packet, _login_packet. rewrite Hid, Hpw.
  cbn [mbind result_bind mret result_ret].
  set (size := Py.upper (Py.format_02x (N.of_nat (length (password self))))).
  assert (Py.upper
            (Py.upper (PACKET_PREFIX +:+ PACKET_PROTOCOL_TYPE +:+ PACKET_SIZE_ID
                       +:+ Py.hex idb
                       +:+ Py.format_02x (N.of_nat (length (password self)))
                       +:+ Py.hex pwb)
             +:+ token f +:+ hexU payload)
          = hexU [xfd; xfd; x02; x10] +:+ hexU idb +:+ size +:+ hexU pwb
            +:+ token f +:+ hexU payload) as ->.
  { rewrite !upper_app, !upper_idem, upper_token, upper_hexU, !append_assoc.
    reflexivity. }
  set (packet := hexU [xfd; xfd; x02; x10] +:+ hexU idb +:+ size +:+ hexU pwb
                 +:+ token f +:+ hexU payload).
  assert (all_chars upper_hex_digit packet) as Hchars.
  { unfold packet, size.
    repeat (apply all_chars_app;
            [first [apply all_chars_hexU | apply all_chars_token
                   | apply format_02x_chars]|]).
    apply all_chars_hexU. }
  destruct (checksum_hex_chars packet Hchars) as (c1 & c2 & ->).
  cbn [mbind result_bind]. now exists c1, c2.
Qed.

(** C7, as amended. The code has no length check and raises no encoding
    error of its own. For every credentials pair whose id or password
    serializes to more than 255 UTF-8 bytes, what decides is the length
    field, the password's character count as written by the format 02x:
    when its digits convert to bytes, the packet is encoded in full, with
    all the id bytes, the bytes of the length field and all the password
    bytes; when they do not, [bytes.fromhex] raises ValueError on the packet
    and [_send_command] leaves the network untouched. The length field is
    the one byte of the count up to 255 characters, whatever the byte
    lengths of the id and of the password; from 256 to 4095 characters it
    has three digits and does not convert. *)
Theorem oversized_credentials_no_length_check
    (self : SikuV2Api) (f : byte) (payload idb pwb : list byte) (w : world) :
  Py.encode_utf8 (idnum self) = Ok idb ->
  Py.encode_utf8 (password self) = Ok pwb ->
  255 < length idb \/ 255 < length pwb ->
  let n := N.of_nat (length (password self)) in
  let password_size := Py.upper (Py.format_02x n) in
  (forall size,
     Py.fromhex password_size = Ok size ->
     exists c1 c2,
       encode self (token f) (hexU payload)
       = Ok ([xfd; xfd; x02; x10] ++ idb ++ size ++ pwb
             ++ f :: payload ++ [c1; c2])) /\
  (forall e,
     Py.fromhex password_size = Err e ->
     _send_command self (token f) (hexU payload) w
     = (Err (ValueError "non-hexadecimal number found in fromhex() arg"), w)) /\
  (length (password self) <= 255 ->
   Py.fromhex password_size = Ok [Py.byte_of_N n]) /\
  (256 <= length (password self) < 4096 ->
   Py.fromhex password_size
   = Err (ValueError "non-hexadecimal number found in fromhex() arg")).
Proof.
  intros Hid Hpw _ n password_size.
  destruct (encode_fromhex self f payload idb pwb Hid Hpw) as (c1 & c2 & He).
  fold n in He. fold password_size in He.
  pose proof (format_02x_chars n) as Hchars. fold password_size in Hchars.
  split; [|split; [|split]].
  - intros size Hsize.
    destruct (fromhex_hex_chars password_size Hchars)
      as [(bs & Hbs & Hok) | (_ & Herr)]; [|congruence].
    assert (size = bs) as -> by congruence.
    exists c1, c2. rewrite He, Hbs.
    rewrite <- hexU_cons, <- !hexU_app, fromhex_hexU. f_equal.
    rewrite <- !app_assoc. reflexivity.
  - intros e Hsize. apply send_command_not_encoded.
    destruct (fromhex_hex_chars password_size Hchars)
      as [(bs & _ & Hok) | (Hodd & _)]; [congruence|].
    rewrite He. apply fromhex_odd.
    + apply all_chars_app; [|apply all_chars_hexU].
      repeat (apply all_chars_app;
              [first [apply all_chars_hexU | apply all_chars_token
                     | exact Hchars]|]).
      apply all_chars_hexU.
    + destruct Hodd as [k Hk].
      rewrite !length_append, !length_hexU, token_length, Hk. cbn [length].
      exists (4 + length idb + k + length pwb + 1 + length payload + 2). lia.
  - intros Hlen. unfold password_size.
    rewrite format_02x_token by (unfold n; lia).
    rewrite <- hexU_single. apply fromhex_hexU.
  - intros Hlen. apply fromhex_odd; [exact Hchars|].
    unfold password_size. rewrite length_upper.
    rewrite format_02x_three_digits by (unfold n; lia). now exists 1.
Qed.

(** ** Further properties of the response parser *)

Lemma field_stream_snoc (fields : list string) (d d' : gmap string string)
    (cmd value : string) :
  field_stream fields d d' ->
  cmd <> RETURN_CHANGE_FUNC -> cmd <> RETURN_INVALID ->
  cmd <> RETURN_VALUE_SIZE -> cmd <> RETURN_HIGH_BYTE ->
  field_stream (fields ++ [cmd; value]) d (<[cmd := value]> d').
Proof.
  intros H H1 H2 H3 H4. induction H.
  - cbn. apply fs_plain; auto. apply fs_nil.
  - cbn. apply fs_plain; auto.
  - cbn. apply fs_invalid; auto.
  - cbn. rewrite <- app_assoc. apply fs_sized; auto.
Qed.

(** X12. Last write wins: in a response of complete fields that ends with a
    plain field, the command of that field is mapped to its value, whatever
    the earlier fields gave for the same command. *)
Theorem parse_last_field_wins
    (n1 n2 cmd value : string) (id_block pw_block fields cs : list string)
    (d : gmap string string) :
  Py.int16 n1 = Ok (N.of_nat (length id_block)) ->
  Py.int16 n2 = Ok (N.of_nat (length pw_block)) ->
  field_stream fields ∅ d ->
  cmd <> RETURN_CHANGE_FUNC -> cmd <> RETURN_INVALID ->
  cmd <> RETURN_VALUE_SIZE -> cmd <> RETURN_HIGH_BYTE ->
  length cs = 2 ->
  exists m,
    _parse_response ("FD" :: "FD" :: "02" :: n1 :: id_block ++ n2 :: pw_block
                     ++ FUNC_RESULT :: (fields ++ [cmd; value]) ++ cs) = Ok m /\
    m !! cmd = Some value /\
    (forall k, k <> cmd -> m !! k = d !! k).
Proof.
  intros Hn1 Hn2 Hf H1 H2 H3 H4 Hcs.
  exists (<[cmd := value]> d). split; [|split].
  - apply parse_response_stream; try assumption.
    now apply field_stream_snoc.
  - apply lookup_insert_eq.
  - intros k Hk. now apply lookup_insert_ne.
Qed.

(** The loop gives the same result with any fuel that covers the rest of
    the list. *)
Lemma parse_fields_fuel_irrelevant (fuel1 fuel2 : nat) (hexlist : list string)
    (i : nat) (data : gmap string string) :
  length hexlist <= fuel1 + i -> length hexlist <= fuel2 + i ->
  parse_fields fuel1 hexlist i data = parse_fields fuel2 hexlist i data.
Proof.
  revert fuel2 i data. induction fuel1 as [|fuel1 IH]; intros fuel2 i data H1 H2;
    rewrite !(parse_fields_unfold _ hexlist i);
    destruct (decide (i + 2 < length hexlist)) as [Hi|Hi]; try reflexivity;
    [lia|].
  destruct fuel2 as [|fuel2]; [lia|].
  destruct (Py.index hexlist i) as [p|]; [|reflexivity]. cbn [mbind result_bind].
  repeat case_decide; try reflexivity.
  - destruct (Py.index hexlist (i + 1)); [|reflexivity]. cbn [mbind result_bind].
    apply IH; lia.
  - destruct (Py.index hexlist (i + 1)) as [q|]; [|reflexivity].
    cbn [mbind result_bind].
    destruct (Py.int16 q); [|reflexivity]. cbn [mbind result_bind].
    destruct (Py.index hexlist (i + 1 + 1)); [|reflexivity].
    cbn [mbind result_bind]. apply IH; lia.
  - destruct (Py.index hexlist (i + 1)); [|reflexivity]. cbn [mbind result_bind].
    apply IH; lia.
Qed.

Ltac finish_skip :=
  match goal with
  | |- parse_fields _ _ ?i _ = parse_fields _ _ ?j _ =>
      replace i with j
        by (rewrite ?length_app; cbn [length]; rewrite ?length_app;
            cbn [length]; lia)
  end;
  apply parse_fields_fuel_irrelevant;
  rewrite ?length_app in *; cbn [length] in *; rewrite ?length_app in *;
  cbn [length] in *; lia.

(** Complete fields are read one after the other, whatever follows them,
    as long as at least two tokens follow. *)
Lemma parse_fields_skip (fields : list string) (d d' : gmap string string) :
  field_stream fields d d' ->
  forall (pre suf : list string) (fuel : nat),
    2 <= length suf ->
    length (pre ++ fields ++ suf) <= fuel + length pre ->
    parse_fields fuel (pre ++ fields ++ suf) (length pre) d
    = parse_fields fuel (pre ++ fields ++ suf) (length pre + length fields) d'.
Proof.
  induction 1 as [d | cmd value rest d d' H1 H2 H3 H4 _ IH
                  | cmd rest d d' _ IH
                  | n cmd value rest d d' Hn Hv _ IH];
    intros pre suf fuel Hsuf Hfuel.
  - cbn [length]. now rewrite Nat.add_0_r.
  - rewrite (parse_fields_unfold fuel).
    rewrite decide_True by (rewrite !length_app; cbn [length]; lia).
    destruct fuel as [|fuel];
      [rewrite !length_app in Hfuel; cbn [length] in Hfuel; lia|].
    cbn [app].
    rewrite (index_middle pre _ cmd (length pre)) by reflexivity.
    cbn [mbind result_bind].
    rewrite !decide_False by assumption.
    rewrite (cons_middle cmd pre), app_assoc.
    rewrite (index_middle (pre ++ [cmd]) _ value (length pre + 1))
      by (rewrite length_app; reflexivity).
    cbn [mbind result_bind].
    rewrite (cons_middle value (pre ++ [cmd])), app_assoc.
    replace (length pre + 1 + 1) with (length ((pre ++ [cmd]) ++ [value]))
      by (rewrite !length_app; reflexivity).
    rewrite IH; [|exact Hsuf|]; [finish_skip|].
    rewrite ?length_app in *. cbn [length] in *. rewrite ?length_app in *.
    cbn [length] in *. lia.
  - rewrite (parse_fields_unfold fuel).
    rewrite decide_True by (rewrite !length_app; cbn [length]; lia).
    destruct fuel as [|fuel];
      [rewrite !length_app in Hfuel; cbn [length] in Hfuel; lia|].
    cbn [app].
    rewrite (index_middle pre _ RETURN_INVALID (length pre)) by reflexivity.
    cbn [mbind result_bind].
    rewrite decide_False by discriminate. rewrite decide_True by reflexivity.
    rewrite (cons_middle RETURN_INVALID pre), app_assoc.
    rewrite (index_middle (pre ++ [RETURN_INVALID]) _ cmd (length pre + 1))
      by (rewrite length_app; reflexivity).
    cbn [mbind result_bind].
    rewrite (cons_middle cmd (pre ++ [RETURN_INVALID])), app_assoc.
    replace (length pre + 1 + 1) with (length ((pre ++ [RETURN_INVALID]) ++ [cmd]))
      by (rewrite !length_app; reflexivity).
    rewrite IH; [|exact Hsuf|]; [finish_skip|].
    rewrite ?length_app in *. cbn [length] in *. rewrite ?length_app in *.
    cbn [length] in *. lia.
  - rewrite (parse_fields_unfold fuel).
    rewrite decide_True by (rewrite !length_app; cbn [length]; lia).
    destruct fuel as [|fuel];
      [rewrite !length_app in Hfuel; cbn [length] in Hfuel; lia|].
    cbn [app].
    rewrite (index_middle pre _ RETURN_VALUE_SIZE (length pre)) by reflexivity.
    cbn [mbind result_bind].
    rewrite !(decide_False (P := RETURN_VALUE_SIZE = _)) by discriminate.
    rewrite decide_True by reflexivity.
    rewrite (cons_middle RETURN_VALUE_SIZE pre), app_assoc.
    rewrite (index_middle (pre ++ [RETURN_VALUE_SIZE]) _ n (length pre + 1))
      by (rewrite length_app; reflexivity).
    cbn [mbind result_bind]. rewrite Hn. cbn [mbind result_bind].
    rewrite Nat2N.id.
    rewrite (cons_middle n (pre ++ [RETURN_VALUE_SIZE])), app_assoc.
    rewrite (index_middle ((pre ++ [RETURN_VALUE_SIZE]) ++ [n]) _ cmd
               (length pre + 1 + 1))
      by (rewrite !length_app; reflexivity).
    cbn [mbind result_bind].
    rewrite (cons_middle cmd ((pre ++ [RETURN_VALUE_SIZE]) ++ [n])), app_assoc.
    set (pre' := ((pre ++ [RETURN_VALUE_SIZE]) ++ [n]) ++ [cmd]).
    assert (length pre' = length pre + 1 + 1 + 1) as Hpre'
      by (unfold pre'; rewrite !length_app; reflexivity).
    assert (Py.slice (length pre + 1 + 1 + 1) (length pre + 1 + 1 + 1 + length value)
              (pre' ++ (value ++ rest) ++ suf) = value) as ->.
    { unfold Py.slice. rewrite <- Hpre', drop_app_length.
      replace (length pre' + length value - length pre') with (length value) by lia.
      rewrite <- app_assoc. apply take_app_length. }
    rewrite chunks2_join by exact Hv.
    rewrite <- (app_assoc value rest suf), (app_assoc pre' value).
    replace (length pre + 1 + 1 + length value + 1) with (length (pre' ++ value))
      by (rewrite length_app; lia).
    rewrite IH; [|exact Hsuf|]; [finish_skip|].
    rewrite ?length_app in *. cbn [length] in *. rewrite ?length_app in *.
    cbn [length] in *. lia.
Qed.

(** The parser after a complete header: the function check and the loop. *)
Lemma parse_response_after_header (n1 n2 tok : string)
    (id_block pw_block tail : list string) :
  Py.int16 n1 = Ok (N.of_nat (length id_block)) ->
  Py.int16 n2 = Ok (N.of_nat (length pw_block)) ->
  let pre := "FD" :: "FD" :: "02" :: n1 :: id_block ++ n2 :: pw_block in
  _parse_response ("FD" :: "FD" :: "02" :: n1 :: id_block ++ n2 :: pw_block
                   ++ tok :: tail)
  = reraise_KeyError
      (if negb (bool_decide (tok = FUNC_RESULT))
       then Err (Exception_ "Invalid result function")
       else parse_fields (length ((pre ++ [tok]) ++ tail))
              ((pre ++ [tok]) ++ tail) (length (pre ++ [tok])) ∅).
Proof.
  intros H1 H2 pre. unfold _parse_response.
  rewrite (parse_header_skips n1 n2 id_block _ _ H1 H2), Nat2N.id.
  cbn [mbind result_bind].
  assert (length pre = 5 + length id_block + length pw_block) as Hpre.
  { unfold pre. cbn [length]. rewrite length_app. cbn [length]. lia. }
  assert ("FD" :: "FD" :: "02" :: n1 :: id_block ++ n2 :: pw_block
          ++ tok :: tail = pre ++ tok :: tail) as ->.
  { unfold pre. cbn [app]. do 4 f_equal. rewrite <- app_assoc. reflexivity. }
  rewrite (index_middle pre _ tok) by lia.
  cbn [mbind result_bind].
  rewrite (cons_middle tok pre), app_assoc.
  replace (5 + length id_block + length pw_block + 1)
    with (length (pre ++ [tok])) by (rewrite length_app; cbn [length]; lia).
  reflexivity.
Qed.

(** X13. The two reserved markers stop the parser: after any complete
    fields, the change-function marker or the high-byte marker in field
    position makes [_parse_response] raise its not-implemented exception,
    whatever follows the marker. *)
Theorem parse_unsupported_marker
    (n1 n2 : string) (id_block pw_block fields rest cs : list string)
    (d : gmap string string) :
  Py.int16 n1 = Ok (N.of_nat (length id_block)) ->
  Py.int16 n2 = Ok (N.of_nat (length pw_block)) ->
  field_stream fields ∅ d ->
  length cs = 2 ->
  _parse_response ("FD" :: "FD" :: "02" :: n1 :: id_block ++ n2 :: pw_block
                   ++ FUNC_RESULT :: fields ++ RETURN_CHANGE_FUNC :: rest ++ cs)
  = Err (Exception_ "special function, change base function not implemented") /\
  _parse_response ("FD" :: "FD" :: "02" :: n1 :: id_block ++ n2 :: pw_block
                   ++ FUNC_RESULT :: fields ++ RETURN_HIGH_BYTE :: rest ++ cs)
  = Err (Exception_ "special function, high byte not implemented").
Proof.
  intros H1 H2 Hf Hcs.
  assert (forall m,
    (m = RETURN_CHANGE_FUNC \/ m = RETURN_HIGH_BYTE) ->
    _parse_response ("FD" :: "FD" :: "02" :: n1 :: id_block ++ n2 :: pw_block
                     ++ FUNC_RESULT :: fields ++ m :: rest ++ cs)
    = reraise_KeyError
        (if decide (m = RETURN_CHANGE_FUNC)
         then Err (Exception_
                     "special function, change base function not implemented")
         else Err (Exception_ "special function, high byte not implemented")))
    as Hm.
  { intros m Hmark.
    rewrite (parse_response_after_header n1 n2 FUNC_RESULT _ _ _ H1 H2).
    cbv zeta. rewrite bool_decide_eq_true_2 by reflexivity. cbn [negb].
    set (pre := ("FD" :: "FD" :: "02" :: n1 :: id_block ++ n2 :: pw_block)
                ++ [FUNC_RESULT]).
    rewrite (parse_fields_skip fields ∅ d Hf pre (m :: rest ++ cs));
      [|cbn [length]; rewrite length_app; lia | lia].
    rewrite parse_fields_unfold.
    rewrite decide_True
      by (rewrite !length_app; cbn [length]; rewrite length_app; lia).
    destruct (length (pre ++ fields ++ m :: rest ++ cs)) as [|fuel] eqn:Hlen;
      [rewrite !length_app in Hlen; cbn [length] in Hlen; lia|].
    rewrite app_assoc.
    rewrite (index_middle (pre ++ fields) _ m (length pre + length fields))
      by (now rewrite length_app).
    cbn [mbind result_bind].
    destruct Hmark as [-> | ->].
    - rewrite !decide_True by reflexivity. reflexivity.
    - rewrite !(decide_False (P := RETURN_HIGH_BYTE = _)) by discriminate.
      rewrite decide_True by reflexivity. reflexivity. }
  split.
  - rewrite Hm by auto. now rewrite decide_True.
  - rewrite Hm by auto. now rewrite decide_False.
Qed.

Ltac inj_err :=
  let H := fresh in intros H; injection H as H; subst.

Lemma index_error {A} (l : list A) (i : nat) (e : exn) :
  Py.index l i = Err e -> e = IndexError.
Proof. unfold Py.index. destruct (l !! i); [discriminate | now intros [= <-]]. Qed.

Ltac step_index :=
  match goal with
  | |- context [Py.index ?l ?i] =>
      let E := fresh "E" in
      destruct (Py.index l i) eqn:E; cbn [mbind result_bind];
      [|apply index_error in E as ->; inj_err; auto 10]
  end.

Ltac step_int16 :=
  match goal with
  | |- context [Py.int16 ?t] =>
      let E := fresh "E" in
      destruct (Py.int16 t) eqn:E; cbn [mbind result_bind];
      [|apply int16_error in E as ->; inj_err; auto 10]
  end.

Lemma parse_header_errors (hexlist : list string) (e : exn) :
  parse_header hexlist = Err e -> parser_error e.
Proof.
  unfold parse_header, parser_error.
  destruct (bool_decide _); cbn [negb]; [|inj_err; auto 10].
  step_index.
  destruct (bool_decide _); cbn [negb]; [|inj_err; auto 10].
  step_index. step_int16. step_index. step_int16.
  discriminate.
Qed.

Lemma parse_fields_errors (fuel : nat) (hexlist : list string) (i : nat)
    (data : gmap string string) (e : exn) :
  length hexlist <= fuel + i ->
  parse_fields fuel hexlist i data = Err e ->
  e = ValueError "invalid literal for int() with base 16" \/
  e = Exception_ "special function, change base function not implemented" \/
  e = Exception_ "special function, high byte not implemented".
Proof.
  revert i data. induction fuel as [|fuel IH]; intros i data Hlen;
    rewrite parse_fields_unfold;
    destruct (decide (i + 2 < length hexlist)) as [Hi|Hi];
    try discriminate; [lia|].
  destruct (index_lt hexlist i) as [p ->]; [lia|].
  destruct (index_lt hexlist (i + 1)) as [q ->]; [lia|].
  destruct (index_lt hexlist (i + 1 + 1)) as [r Hr]; [lia|].
  cbn [mbind result_bind].
  repeat case_decide.
  - inj_err. auto.
  - apply IH. lia.
  - destruct (Py.int16 q) as [n|e'] eqn:En; cbn [mbind result_bind].
    + rewrite Hr. cbn [mbind result_bind]. apply IH. lia.
    + apply int16_error in En as ->. inj_err. auto.
  - inj_err. auto.
  - apply IH. lia.
Qed.

Lemma parse_response_errors_any (hexlist : list string) (e : exn) :
  _parse_response hexlist = Err e -> parser_error e.
Proof.
  unfold _parse_response.
  destruct (parse_header hexlist) as [start|e1] eqn:Eh.
  - cbn [mbind result_bind].
    destruct (Py.index hexlist start) as [t|e2] eqn:Ei.
    + cbn [mbind result_bind].
      destruct (bool_decide _); cbn [negb].
      * destruct (parse_fields _ _ _ _) as [m|e3] eqn:Ef; [discriminate|].
        apply parse_fields_errors in Ef; [|lia].
        unfold parser_error.
        destruct Ef as [-> | [-> | ->]]; inj_err; auto 10.
      * inj_err. unfold parser_error. auto 10.
    + apply index_error in Ei as ->. inj_err. unfold parser_error. auto.
  - apply parse_header_errors in Eh. cbn [mbind result_bind].
    unfold parser_error in Eh.
    destruct Eh as [-> | [-> | [-> | [-> | [-> | [-> | ->]]]]]];
      inj_err; unfold parser_error; auto 10.
Qed.

(** X14. On the hex list of any datagram, [_parse_response] returns or
    raises (the loop ends), and every exception it raises is the IndexError
    of a list access, the ValueError of a number conversion, or one of the
    five exceptions the parser raises itself; the handler for KeyError never
    fires. *)
Theorem parse_response_errors (wire : list byte) (e : exn) :
  _parse_response (decode wire) = Err e -> parser_error e.
Proof. apply parse_response_errors_any. Qed.

(** X15. On the hex list of a datagram whose header is complete (the skips
    of the id and password blocks succeed and the function token exists),
    [_parse_response] never raises IndexError: a short field stream is not
    noticed. *)
Theorem parse_response_no_IndexError_after_header
    (wire : list byte) (start : nat) (tok : string) :
  parse_header (decode wire) = Ok start ->
  Py.index (decode wire) start = Ok tok ->
  _parse_response (decode wire) <> Err IndexError.
Proof.
  intros Hh Hi. unfold _parse_response. rewrite Hh. cbn [mbind result_bind].
  rewrite Hi. cbn [mbind result_bind].
  destruct (bool_decide _); cbn [negb]; [|discriminate].
  destruct (parse_fields _ _ _ _) as [m|e] eqn:Ef; [discriminate|].
  apply parse_fields_errors in Ef; [|lia].
  destruct Ef as [-> | [-> | ->]]; discriminate.
Qed.

(** X16. The client refuses its own requests: for an id of 16 bytes, an
    ASCII password of at most 255 characters and a function byte other than
    0x06, the decoded packet passes [_verify_checksum] and makes
    [_parse_response] raise the result-function exception. *)
Theorem own_request_is_rejected
    (self : SikuV2Api) (f : byte) (payload idb : list byte) :
  Py.encode_utf8 (idnum self) = Ok idb ->
  length idb = 16 ->
  Forall (fun c => (c < 128)%N) (password self) ->
  length (password self) <= 255 ->
  f <> x06 ->
  exists wire,
    encode self (token f) (hexU payload) = Ok wire /\
    _verify_checksum (decode wire) = Ok true /\
    _parse_response (decode wire) = Err (Exception_ "Invalid result function").
Proof.
  intros Hid Hid16 Hascii Hlen Hf.
  pose proof (encode_utf8_ascii _ Hascii) as Hpw.
  destruct (encode_bytes self idb _ f payload Hid Hpw Hlen)
    as (c1 & c2 & Hc & He).
  eexists. split; [exact He|]. rewrite decode_tokens. split.
  - now apply verify_checksum_appended.
  - unfold login_bytes. rewrite <- !app_assoc.
    cbn [app]. rewrite !map_cons, map_app, map_cons, map_app, map_cons.
    change (token xfd) with "FD". change (token x02) with "02".
    change (token x10) with PACKET_SIZE_ID.
    rewrite (parse_response_after_header PACKET_SIZE_ID _ (token f)).
    + cbv zeta. rewrite bool_decide_eq_false_2; [reflexivity|].
      change FUNC_RESULT with (token x06). intros E. now apply token_inj in E.
    + rewrite length_map, Hid16. reflexivity.
    + rewrite int16_token, !length_map. f_equal. apply to_N_byte_of_N. lia.
Qed.

Lemma utf8_char_non_ascii (c : N) (bs : list byte) :
  (128 <= c)%N -> Py.utf8_char c = Ok bs -> 2 <= length bs.
Proof.
  unfold Py.utf8_char. intros Hc H.
  change 0x80%N with 128%N in H.
  destruct (c <? 128)%N eqn:E; [apply N.ltb_lt in E; lia|].
  repeat match type of H with
         | (if ?b then _ else _) = _ => destruct b
         end; inversion H; cbn; lia.
Qed.

Lemma encode_utf8_non_ascii (s : Py.pystr) (bs : list byte) :
  Py.encode_utf8 s = Ok bs ->
  Exists (fun c => (128 <= c)%N) s ->
  length s < length bs.
Proof.
  revert bs. induction s as [|c s IH]; intros bs H Hex; [inversion Hex|].
  rewrite encode_utf8_cons in H.
  destruct (Py.utf8_char c) as [cb|] eqn:Ec; [|discriminate].
  destruct (Py.encode_utf8 s) as [rest|] eqn:Es; [|discriminate].
  cbn in H. inversion H; subst. rewrite length_app. cbn [length].
  pose proof (utf8_char_length _ _ Ec).
  pose proof (encode_utf8_length _ _ Es).
  apply Exists_cons in Hex as [Hc|Hs].
  - pose proof (utf8_char_non_ascii _ _ Hc Ec). lia.
  - specialize (IH rest eq_refl Hs). lia.
Qed.

(** X17. The length written before the password is its number of
    characters: for a password with a character outside ASCII it is smaller
    than the number of password bytes that follow it in the packet. *)
Theorem password_size_counts_characters
    (self : SikuV2Api) (idb pwb : list byte) :
  Py.encode_utf8 (idnum self) = Ok idb ->
  Py.encode_utf8 (password self) = Ok pwb ->
  length (password self) <= 255 ->
  Exists (fun c => (128 <= c)%N) (password self) ->
  (login ← _login_packet self; Py.fromhex login)
  = Ok ([xfd; xfd; x02; x10] ++ idb
        ++ [Py.byte_of_N (N.of_nat (length (password self)))] ++ pwb) /\
  length (password self) < length pwb.
Proof.
  intros Hid Hpw Hlen Hex. split.
  - rewrite (login_packet_bytes self idb pwb Hid Hpw Hlen).
    cbn [mbind result_bind]. now rewrite fromhex_hexU.
  - now apply (encode_utf8_non_ascii _ _ Hpw).
Qed.

(** ** Further properties of the translator and of the command methods *)


(** X19. In every record the translator returns, oscillating is true
    exactly when the direction is None or the alternating direction, and the
    direction is the entry of [DIRECTIONS] for the direction field. *)
Theorem translate_direction (data : gmap string string) (r : DeviceStatus) :
  _translate_response data = Ok r ->
  (st_oscillating r = true <->
   st_direction r = None \/ st_direction r = Some DIRECTION_ALTERNATING) /\
  (forall name,
     st_direction r = Some name <->
     exists code, data !! COMMAND_DIRECTION = Some code /\
                  Py.odict_getitem DIRECTIONS code = Ok name).
Proof.
  rewrite translate_response_eq.
  destruct (match data !! COMMAND_SPEED with
            | Some v => n ← Py.int16 v; mret (Py.format_02 n)
            | None => Ok "00"
            end) as [sp|]; [|discriminate].
  cbn [mbind result_bind mret result_ret]. intros H. injection H as <-.
  cbn [st_oscillating st_direction].
  destruct (data !! COMMAND_DIRECTION) as [code|].
  - destruct (Py.odict_getitem DIRECTIONS code) as [dir|e] eqn:Ed.
    + split.
      * rewrite bool_decide_eq_true. split.
        -- intros ->. auto.
        -- intros [H|H]; [discriminate | now injection H].
      * intros name. split.
        -- intros [= ->]. eauto.
        -- intros (c & [= <-] & Hc). rewrite Ed in Hc. now injection Hc as ->.
    + split; [split; auto|].
      intros name. split; [discriminate|].
      intros (c & [= <-] & Hc). rewrite Ed in Hc. discriminate.
  - split; [split; auto|].
    intros name. split; [discriminate|]. intros (c & Hc & _). discriminate.
Qed.

Lemma response_bytes_split (idb pwb fields : list byte) (c1 c2 : byte) :
  response_bytes idb pwb fields c1 c2
  = ([xfd; xfd; x02; Py.byte_of_N (N.of_nat (length idb))] ++ idb
     ++ [Py.byte_of_N (N.of_nat (length pwb))] ++ pwb ++ [x06] ++ fields)
    ++ [c1; c2].
Proof. unfold response_bytes. now rewrite <- !app_assoc. Qed.

(** A response of the device with a valid checksum and complete fields is
    verified and parsed to the mapping of its fields. *)
Lemma response_verified_and_parsed (idb pwb fields : list byte) (c1 c2 : byte)
    (m : gmap string string) :
  length (response_bytes idb pwb fields c1 c2) <= 256 ->
  _checksum (hexU ([xfd; xfd; x02; Py.byte_of_N (N.of_nat (length idb))] ++ idb
                   ++ [Py.byte_of_N (N.of_nat (length pwb))] ++ pwb
                   ++ [x06] ++ fields)) = Ok (hexU [c1; c2]) ->
  field_stream (map token fields) ∅ m ->
  _verify_checksum (decode (take 256 (response_bytes idb pwb fields c1 c2)))
  = Ok true /\
  _parse_response (decode (take 256 (response_bytes idb pwb fields c1 c2)))
  = Ok m.
Proof.
  intros Hlen Hc Hf. rewrite take_ge by exact Hlen.
  rewrite decode_tokens. split.
  - rewrite response_bytes_split. now apply verify_checksum_appended.
  - unfold response_bytes in *. rewrite !length_app in Hlen. cbn [length] in Hlen.
    cbn [app]. rewrite !map_cons, map_app, map_cons, map_app, map_cons, map_app.
    cbn [map].
    change (token xfd) with "FD". change (token x02) with "02".
    change (token x06) with FUNC_RESULT.
    apply parse_response_stream.
    + rewrite int16_token, length_map. f_equal. apply to_N_byte_of_N. lia.
    + rewrite int16_token, length_map. f_equal. apply to_N_byte_of_N. lia.
    + exact Hf.
    + reflexivity.
Qed.

Lemma send_command_ok (self : SikuV2Api) (func data : string)
    (wire d : list byte) (rest : list (result (list byte))) (w : world) :
  encode self func data = Ok wire ->
  inbox w = Ok d :: rest ->
  _verify_checksum (decode (take 256 d)) = Ok true ->
  _send_command self func data w
  = (Ok (decode (take 256 d)),
     World rest (((host self, port self), wire) :: sent w)).
Proof.
  intros He Hin Hv. rewrite (send_command_unfold _ _ _ _ _ He), Hin.
  cbv zeta. now rewrite Hv.
Qed.

(** X20. [status] on a response of the device with a valid checksum and
    complete fields: one datagram is sent, the response is taken from the
    network, and the result is the translation of the mapping that the
    fields denote. *)
Theorem status_of_response
    (self : SikuV2Api) (wire idb pwb fields : list byte) (c1 c2 : byte)
    (m : gmap string string) (rest : list (result (list byte))) (w : world) :
  encode self FUNC_READ "B9010225B707" = Ok wire ->
  inbox w = Ok (response_bytes idb pwb fields c1 c2) :: rest ->
  length (response_bytes idb pwb fields c1 c2) <= 256 ->
  _checksum (hexU ([xfd; xfd; x02; Py.byte_of_N (N.of_nat (length idb))] ++ idb
                   ++ [Py.byte_of_N (N.of_nat (length pwb))] ++ pwb
                   ++ [x06] ++ fields)) = Ok (hexU [c1; c2]) ->
  field_stream (map token fields) ∅ m ->
  status self w
  = (_translate_response m,
     World rest (((host self, port self), wire) :: sent w)).
Proof.
  intros He Hin Hlen Hc Hf.
  destruct (response_verified_and_parsed idb pwb fields c1 c2 m Hlen Hc Hf)
    as [Hv Hp].
  unfold status.
  change (Py.upper (COMMAND_DEVICE_TYPE +:+ COMMAND_ON_OFF +:+ COMMAND_SPEED
                    +:+ COMMAND_CURRENT_HUMIDITY +:+ COMMAND_DIRECTION
                    +:+ COMMAND_MODE)) with "B9010225B707".
  unfold mbind at 1, IO_bind.
  rewrite (send_command_ok _ _ _ _ _ _ _ He Hin Hv).
  unfold mbind at 1, IO_bind, lift. now rewrite Hp.
Qed.

(** X21. [humidity] on such a response returns the value of the humidity
    field, or None when the response has no such field. *)
Theorem humidity_of_response
    (self : SikuV2Api) (wire idb pwb fields : list byte) (c1 c2 : byte)
    (m : gmap string string) (rest : list (result (list byte))) (w : world) :
  encode self FUNC_READ "25" = Ok wire ->
  inbox w = Ok (response_bytes idb pwb fields c1 c2) :: rest ->
  length (response_bytes idb pwb fields c1 c2) <= 256 ->
  _checksum (hexU ([xfd; xfd; x02; Py.byte_of_N (N.of_nat (length idb))] ++ idb
                   ++ [Py.byte_of_N (N.of_nat (length pwb))] ++ pwb
                   ++ [x06] ++ fields)) = Ok (hexU [c1; c2]) ->
  field_stream (map token fields) ∅ m ->
  humidity self w
  = (Ok (m !! COMMAND_CURRENT_HUMIDITY),
     World rest (((host self, port self), wire) :: sent w)).
Proof.
  intros He Hin Hlen Hc Hf.
  destruct (response_verified_and_parsed idb pwb fields c1 c2 m Hlen Hc Hf)
    as [Hv Hp].
  unfold humidity.
  change (Py.upper COMMAND_CURRENT_HUMIDITY) with "25".
  unfold mbind at 1, IO_bind.
  rewrite (send_command_ok _ _ _ _ _ _ _ He Hin Hv).
  unfold mbind at 1, IO_bind, lift. now rewrite Hp.
Qed.

Lemma encode_ok (self : SikuV2Api) (idb pwb : list byte) (f : byte)
    (payload : list byte) :
  Py.encode_utf8 (idnum self) = Ok idb ->
  Py.encode_utf8 (password self) = Ok pwb ->
  length (password self) <= 255 ->
  exists wire, encode self (token f) (hexU payload) = Ok wire.
Proof.
  intros Hid Hpw Hlen.
  destruct (encode_bytes self idb pwb f payload Hid Hpw Hlen)
    as (c1 & c2 & _ & He). eauto.
Qed.

(** X22. The commands power_on, power_off, sleep and party make two
    exchanges. The response to the write is only checked for its checksum
    and never parsed; the result is the translation of the response to the
    status request that follows. *)
Theorem write_commands_return_fresh_status
    (command : SikuV2Api -> IO DeviceStatus)
    (self : SikuV2Api) (idb' pwb' d1 idb pwb fields : list byte) (c1 c2 : byte)
    (m : gmap string string) (rest : list (result (list byte))) (w : world) :
  In command [power_on; power_off; sleep; party] ->
  Py.encode_utf8 (idnum self) = Ok idb' ->
  Py.encode_utf8 (password self) = Ok pwb' ->
  length (password self) <= 255 ->
  inbox w = Ok d1 :: Ok (response_bytes idb pwb fields c1 c2) :: rest ->
  _verify_checksum (decode (take 256 d1)) = Ok true ->
  length (response_bytes idb pwb fields c1 c2) <= 256 ->
  _checksum (hexU ([xfd; xfd; x02; Py.byte_of_N (N.of_nat (length idb))] ++ idb
                   ++ [Py.byte_of_N (N.of_nat (length pwb))] ++ pwb
                   ++ [x06] ++ fields)) = Ok (hexU [c1; c2]) ->
  field_stream (map token fields) ∅ m ->
  exists data wire1 wire2,
    encode self FUNC_READ_WRITE data = Ok wire1 /\
    encode self FUNC_READ "B9010225B707" = Ok wire2 /\
    command self w
    = (_translate_response m,
       World rest (((host self, port self), wire2)
                   :: ((host self, port self), wire1) :: sent w)).
Proof.
  intros Hcmd Hid Hpw Hlen Hin Hv1 Hlen2 Hc Hf.
  assert (forall data,
            (exists payload, data = hexU payload) ->
            exists wire1 wire2,
              encode self FUNC_READ_WRITE data = Ok wire1 /\
              encode self FUNC_READ "B9010225B707" = Ok wire2 /\
              (_ ← _send_command self FUNC_READ_WRITE data; status self) w
              = (_translate_response m,
                 World rest (((host self, port self), wire2)
                             :: ((host self, port self), wire1) :: sent w)))
    as Hgen.
  { intros data [payload ->].
    destruct (encode_ok self idb' pwb' x03 payload Hid Hpw Hlen) as [wire1 He1].
    destruct (encode_ok self idb' pwb' x01 [xb9; x01; x02; x25; xb7; x07]
                Hid Hpw Hlen) as [wire2 He2].
    change (token x03) with FUNC_READ_WRITE in He1.
    change (token x01) with FUNC_READ in He2.
    change (hexU [xb9; x01; x02; x25; xb7; x07]) with "B9010225B707" in He2.
    exists wire1, wire2. split; [exact He1|]. split; [exact He2|].
    unfold mbind at 1, IO_bind.
    rewrite (send_command_ok _ _ _ _ _ _ _ He1 Hin Hv1).
    cbv beta iota.
    rewrite (status_of_response self wire2 idb pwb fields c1 c2 m rest _ He2);
      [reflexivity | reflexivity | assumption..]. }
  cbn [In] in Hcmd. destruct Hcmd as [<- | [<- | [<- | [<- | []]]]].
  - exists "0101". apply Hgen. now exists [x01; x01].
  - exists "0100". apply Hgen. now exists [x01; x00].
  - exists "01010701". apply Hgen. now exists [x01; x01; x07; x01].
  - exists "01010702". apply Hgen. now exists [x01; x01; x07; x02].
Qed.


Lemma direction_name_to_code (d : Py.odict) (code name : string) :
  NoDup (Py.values d) ->
  (code, name) ∈ d ->
  (k ← Py.list_index (Py.values d) name; Py.index (Py.keys d) k) = Ok code.
Proof.
  induction d as [|[k0 v0] d IH]; intros Hnd Hin; [inversion Hin|].
  cbn [Py.values Py.keys map fst snd Py.list_index] in *.
  apply NoDup_cons in Hnd as [Hv0 Hnd].
  case_decide as Hv.
  - subst v0. cbn. apply elem_of_cons in Hin as [[= ->]|Hin]; [reflexivity|].
    exfalso. apply Hv0. apply list_elem_of_fmap. exists (code, name). auto.
  - apply elem_of_cons in Hin as [[= -> ->]|Hin]; [congruence|].
    specialize (IH Hnd Hin). unfold Py.values, Py.keys in IH.
    destruct (Py.list_index (map snd d) name) as [k|]; cbn in IH |- *;
      [exact IH | discriminate].
Qed.

(** X24. A direction name and its raw code are interchangeable: when the
    names of [DIRECTIONS] are distinct and the code is not itself a name,
    [direction] with the name does exactly what it does with the code. *)
Theorem direction_name_or_code
    (self : SikuV2Api) (code name : string) (w : world) :
  NoDup (Py.values DIRECTIONS) ->
  (code, name) ∈ DIRECTIONS ->
  code ∉ Py.values DIRECTIONS ->
  direction self name w = direction self code w.
Proof.
  intros Hnd Hin Hcode. unfold direction.
  rewrite (decide_True (P := name ∈ Py.values DIRECTIONS)).
  - rewrite (direction_name_to_code DIRECTIONS code name Hnd Hin).
    now rewrite (decide_False (P := code ∈ Py.values DIRECTIONS)).
  - apply list_elem_of_fmap. exists (code, name). auto.
Qed.

End Api.

(** ** The code at the inputs where it departs from the specification *)

(** C3, at the failing input. For the prefix FDFD followed by 258 bytes FF the
    sum is 0x100FE; [_checksum] renders the first four of the five digits of
    the sum, 0F then 10, where the specification asks for the low 16 bits,
    FE then 00. The same happens in [_build_packet] with a password of 200
    characters U+00FF. *)
Theorem checksum_beyond_16_bits :
  let bs := xfd :: xfd :: repeat xff 258 in
  let body := login_bytes (repeat x30 16) 200
                (concat (repeat [xc3; xbf] 200)) ++ [x01; x01] in
  byte_sum (drop 2 bs) = 0x100FE%N /\
  _checksum (hexU bs) = Ok "0F10" /\
  hexU (checksum_spec bs) = "FE00" /\
  _build_packet Sample.api_high_password FUNC_READ COMMAND_ON_OFF
  = Ok (hexU body +:+ "1613") /\
  hexU (checksum_spec body) = "6C31".
Proof. cbv zeta. repeat split; vm_compute; reflexivity. Qed.

(** C4, at the failing inputs. A sized field that declares four value bytes
    and carries one is accepted, and the two checksum tokens end up in its
    value; a plain field without a value is accepted, and takes the first
    checksum token as its value. Both responses pass the checksum. *)
Theorem truncated_fields_are_accepted :
  _verify_checksum Sample.response_short_value = Ok true /\
  _parse_response Sample.response_short_value
  = Ok {[ COMMAND_CURRENT_HUMIDITY := "051811" ]} /\
  _verify_checksum Sample.response_missing_value = Ok true /\
  _parse_response Sample.response_missing_value
  = Ok {[ COMMAND_ON_OFF := "E1" ]}.
Proof. repeat split; vm_compute; reflexivity. Qed.

(** A response cut inside its id block: the IndexError of the list access
    leaves [_parse_response] as it is, the handler being for KeyError. *)
Lemma truncated_header_IndexError :
  _parse_response ["FD"; "FD"; "02"; "10"; "30"; "30"] = Err IndexError.
Proof. vm_compute. reflexivity. Qed.

(** The end-to-end example of the specification: id A1, password pw, read
    of on/off and speed. *)
Example end_to_end_packet :
  _build_packet Sample.api_A1 FUNC_READ "0102"
  = Ok "FDFD021041310270770101027101".
Proof. vm_compute. reflexivity. Qed.

(** ** Counterexamples to the claims as they are stated *)

(** C1. The credentials of the end-to-end example, id A1 and password pw:
    the packet is encoded, but the parser reads the fixed byte 0x10 as an id
    block of sixteen tokens and runs off the end of the hex list. *)
Lemma roundtrip_short_id_IndexError :
  (wire ← encode Sample.api_A1 FUNC_READ "0102";
   parse_header (decode wire)) = Err IndexError.
Proof. vm_compute. reflexivity. Qed.

(** C2. For id A1 and password pw, the login part has no id length byte. *)
Lemma login_packet_without_id_length :
  Py.encode_utf8 (idnum Sample.api_A1) = Ok [x41; x31] /\
  Py.encode_utf8 (password Sample.api_A1) = Ok [x70; x77] /\
  (login ← _login_packet Sample.api_A1; Py.fromhex login)
  = Ok [xfd; xfd; x02; x10; x41; x31; x02; x70; x77] /\
  (login ← _login_packet Sample.api_A1; Py.fromhex login)
  <> Ok (header_spec [x41; x31] [x70; x77]).
Proof. repeat split; vm_compute; try reflexivity. discriminate. Qed.

(** C6. A speed field FF is translated to the speed 255, of three digits. *)
Lemma speed_FF_three_digits :
  ~ (exists r,
       _translate_response Sample.DIRECTION_ALTERNATING Sample.DIRECTIONS
         Sample.PRESET_MODE_AUTO Sample.PRESET_MODE_PARTY
         Sample.PRESET_MODE_SLEEP {[ COMMAND_SPEED := "FF" ]} = Ok r /\
       String.length (st_speed r) = 2).
Proof.
  intros (r & Hr & Hlen). vm_compute in Hr. injection Hr as <-.
  vm_compute in Hlen. discriminate.
Qed.

(** C7. An id of 256 characters is encoded into a datagram of 268 bytes. *)
Lemma long_id_is_encoded :
  (length <$> Py.encode_utf8 (idnum Sample.api_long_id)) = Ok 256 /\
  (length <$> encode Sample.api_long_id FUNC_READ "0102") = Ok 268.
Proof. split; vm_compute; reflexivity. Qed.


(** ** The theorems at concrete inputs *)

Lemma roundtrip_header_and_checksum_witness :
  Py.encode_utf8 (idnum Sample.api_16) = Ok (repeat x30 16) /\
  length (repeat x30 16) = 16 /\
  Forall (fun c => (c < 128)%N) (password Sample.api_16) /\
  length (password Sample.api_16) <= 255 /\
  exists c1 c2,
    let pwb := map Py.byte_of_N (password Sample.api_16) in
    let login := login_bytes (repeat x30 16) (length pwb) pwb in
    let wire := login ++ x01 :: [xb9; x01; x02; x25; xb7; x07] ++ [c1; c2] in
    Py.encode_utf8 (password Sample.api_16) = Ok pwb /\
    encode Sample.api_16 (token x01) (hexU [xb9; x01; x02; x25; xb7; x07])
    = Ok wire /\
    parse_header (decode wire) = Ok (length login) /\
    Py.index (decode wire) (length login) = Ok (token x01) /\
    _verify_checksum (decode wire) = Ok true.
Proof.
  assert (Py.encode_utf8 (idnum Sample.api_16) = Ok (repeat x30 16)) as H1
    by reflexivity.
  assert (length (repeat x30 16) = 16) as H2 by reflexivity.
  assert (Forall (fun c => (c < 128)%N) (password Sample.api_16)) as H3
    by (repeat constructor).
  assert (length (password Sample.api_16) <= 255) as H4 by (vm_compute; lia).
  exact (conj H1 (conj H2 (conj H3 (conj H4
           (roundtrip_header_and_checksum Sample.api_16 x01
              [xb9; x01; x02; x25; xb7; x07] _ H1 H2 H3 H4))))).
Defined.

Lemma login_packet_layout_witness :
  Py.encode_utf8 (idnum Sample.api_A1) = Ok [x41; x31] /\
  Forall (fun c => (c < 128)%N) (password Sample.api_A1) /\
  length (password Sample.api_A1) <= 255 /\
  exists pwb,
    Py.encode_utf8 (password Sample.api_A1) = Ok pwb /\
    (login ← _login_packet Sample.api_A1; Py.fromhex login)
    = Ok ([xfd; xfd; x02; x10] ++ [x41; x31]
          ++ [Py.byte_of_N (N.of_nat (length pwb))] ++ pwb).
Proof.
  assert (Py.encode_utf8 (idnum Sample.api_A1) = Ok [x41; x31]) as H1
    by reflexivity.
  assert (Forall (fun c => (c < 128)%N) (password Sample.api_A1)) as H2
    by (repeat constructor).
  assert (length (password Sample.api_A1) <= 255) as H3 by (vm_compute; lia).
  exact (conj H1 (conj H2 (conj H3
           (login_packet_layout Sample.api_A1 _ H1 H2 H3)))).
Defined.

Lemma oversized_credentials_no_length_check_witness :
  Py.encode_utf8 (idnum Sample.api_long_id) = Ok (repeat x41 256) /\
  Py.encode_utf8 (password Sample.api_long_id) = Ok [x70; x77] /\
  (255 < length (repeat x41 256) \/ 255 < length [x70; x77]) /\
  Py.fromhex (Py.upper (Py.format_02x
                (N.of_nat (length (password Sample.api_long_id)))))
  = Ok [x02] /\
  exists c1 c2,
    encode Sample.api_long_id (token x01) (hexU [x01; x02])
    = Ok ([xfd; xfd; x02; x10] ++ repeat x41 256 ++ [x02] ++ [x70; x77]
          ++ x01 :: [x01; x02] ++ [c1; c2]).
Proof.
  assert (Py.encode_utf8 (idnum Sample.api_long_id) = Ok (repeat x41 256)) as H1
    by (vm_compute; reflexivity).
  assert (Py.encode_utf8 (password Sample.api_long_id) = Ok [x70; x77]) as H2
    by reflexivity.
  assert (255 < length (repeat x41 256) \/ 255 < length [x70; x77]) as H3
    by (left; rewrite repeat_length; lia).
  assert (Py.fromhex (Py.upper (Py.format_02x
                        (N.of_nat (length (password Sample.api_long_id)))))
          = Ok [x02]) as H4 by reflexivity.
  exact (conj H1 (conj H2 (conj H3 (conj H4
           (proj1 (oversized_credentials_no_length_check Sample.api_long_id
                     x01 [x01; x02] _ _ Sample.world0 H1 H2 H3)
              [x02] H4))))).
Defined.

Lemma parse_ignores_credentials_witness :
  let fields := ["01"; "01"; "02"; "03"; "FE"; "02"; "25"; "00"; "11";
                 "B7"; "01"; "07"; "01"] in
  let d : gmap string string :=
    <["07" := "01"]> (<["B7" := "01"]> (<["25" := "1100"]>
      (<["02" := "03"]> (<["01" := "01"]> ∅)))) in
  field_stream fields ∅ d /\
  _parse_response Sample.response_status = Ok d /\
  _parse_response Sample.response_status_other = Ok d.
Proof.
  cbv zeta.
  assert (field_stream
            ["01"; "01"; "02"; "03"; "FE"; "02"; "25"; "00"; "11";
             "B7"; "01"; "07"; "01"] ∅
            (<["07" := "01"]> (<["B7" := "01"]> (<["25" := "1100"]>
               (<["02" := "03"]> (<["01" := "01"]> ∅)))))) as Hf.
  { apply fs_plain; try discriminate.
    apply fs_plain; try discriminate.
    apply (fs_sized "02" "25" ["00"; "11"] ["B7"; "01"; "07"; "01"]);
      [reflexivity | repeat constructor |].
    apply fs_plain; try discriminate.
    apply fs_plain; try discriminate.
    apply fs_nil. }
  split; [exact Hf|].
  exact (parse_ignores_credentials "10" "04"
           (repeat "30" 16) (repeat "41" 16)
           ["31"; "31"; "31"; "31"] ["70"; "61"; "73"; "73"]
           _ ["DD"; "05"] ["E0"; "07"] _
           eq_refl eq_refl eq_refl eq_refl Hf eq_refl eq_refl).
Defined.

Lemma translate_defaults_witness :
  let data : gmap string string := {[ COMMAND_SPEED := "FF" ]} in
  data !! COMMAND_ON_OFF = None /\
  data !! COMMAND_DIRECTION = None /\
  data !! COMMAND_MODE = None /\
  data !! COMMAND_SPEED = Some (token xff) /\
  _translate_response Sample.DIRECTION_ALTERNATING Sample.DIRECTIONS
    Sample.PRESET_MODE_AUTO Sample.PRESET_MODE_PARTY Sample.PRESET_MODE_SLEEP
    data
  = Ok {| st_is_on := false; st_speed := padded_decimal (Byte.to_N xff);
          st_oscillating := true; st_direction := None;
          st_mode := Sample.PRESET_MODE_AUTO |}.
Proof.
  cbv zeta.
  assert (({[ COMMAND_SPEED := "FF" ]} : gmap string string) !! COMMAND_ON_OFF
          = None) as H1 by reflexivity.
  assert (({[ COMMAND_SPEED := "FF" ]} : gmap string string) !! COMMAND_DIRECTION
          = None) as H2 by reflexivity.
  assert (({[ COMMAND_SPEED := "FF" ]} : gmap string string) !! COMMAND_MODE
          = None) as H3 by reflexivity.
  assert (({[ COMMAND_SPEED := "FF" ]} : gmap string string) !! COMMAND_SPEED
          = Some (token xff)) as H4 by reflexivity.
  exact (conj H1 (conj H2 (conj H3 (conj H4
           (proj2 (translate_defaults Sample.DIRECTION_ALTERNATING
                     Sample.DIRECTIONS Sample.PRESET_MODE_AUTO
                     Sample.PRESET_MODE_PARTY Sample.PRESET_MODE_SLEEP
                     _ H1 H2 H3) xff H4))))).
Defined.


Lemma validation_before_io_witness :
  ("09" ∉ Sample.FAN_SPEEDS) /\
  speed Sample.DIRECTION_ALTERNATING Sample.DIRECTIONS Sample.FAN_SPEEDS
    Sample.PRESET_MODE_AUTO Sample.PRESET_MODE_PARTY Sample.PRESET_MODE_SLEEP
    Sample.api_16 "09" Sample.world0
  = (Err (ValueError ("Invalid fan speed: " +:+ "09")), Sample.world0) /\
  ("up" ∉ Py.keys Sample.DIRECTIONS) /\
  ("up" ∉ Py.values Sample.DIRECTIONS) /\
  direction Sample.DIRECTION_ALTERNATING Sample.DIRECTIONS
    Sample.PRESET_MODE_AUTO Sample.PRESET_MODE_PARTY Sample.PRESET_MODE_SLEEP
    Sample.api_16 "up" Sample.world0
  = (Err (ValueError ("Invalid fan direction: " +:+ "up")), Sample.world0).
Proof.
  assert ("09" ∉ Sample.FAN_SPEEDS) as H1
    by (apply (bool_decide_unpack _); vm_compute; exact I).
  assert ("up" ∉ Py.keys Sample.DIRECTIONS) as H2
    by (apply (bool_decide_unpack _); vm_compute; exact I).
  assert ("up" ∉ Py.values Sample.DIRECTIONS) as H3
    by (apply (bool_decide_unpack _); vm_compute; exact I).
  pose proof (validation_before_io Sample.DIRECTION_ALTERNATING Sample.DIRECTIONS
                Sample.FAN_SPEEDS Sample.PRESET_MODE_AUTO
                Sample.PRESET_MODE_PARTY Sample.PRESET_MODE_SLEEP
                Sample.api_16 Sample.world0) as (Hs & Hd & _).
  exact (conj H1 (conj (Hs "09" H1) (conj H2 (conj H3 (Hd "up" H2 H3))))).
Defined.

(** ** The further properties at concrete inputs *)

Lemma sample_status_fields :
  field_stream (map token Sample.status_fields) ∅ Sample.status_map.
Proof.
  change (map token Sample.status_fields)
    with ("01" :: "01" :: "02" :: "03"
          :: RETURN_VALUE_SIZE :: "02" :: "25" :: ["00"; "11"]
          ++ ["B7"; "01"; "07"; "01"]).
  apply fs_plain; try discriminate.
  apply fs_plain; try discriminate.
  apply (fs_sized "02" "25" ["00"; "11"] ["B7"; "01"; "07"; "01"]);
    [reflexivity | repeat constructor |].
  apply fs_plain; try discriminate.
  apply fs_plain; try discriminate.
  apply fs_nil.
Qed.

Lemma sample_status_checksum :
  _checksum (hexU ([xfd; xfd; x02;
                    Py.byte_of_N (N.of_nat (length (repeat x30 16)))]
                   ++ repeat x30 16
                   ++ [Py.byte_of_N (N.of_nat (length (repeat x31 4)))]
                   ++ repeat x31 4 ++ [x06] ++ Sample.status_fields))
  = Ok (hexU [xdd; x05]).
Proof. vm_compute. reflexivity. Qed.

Lemma checksum_low_byte_first_witness :
  _checksum (hexU [xfd; xfd; x02; x10; xff; xff])
  = Ok (hexU [Py.byte_of_N (byte_sum (drop 2 [xfd; xfd; x02; x10; xff; xff]) mod 256);
              Py.byte_of_N (byte_sum (drop 2 [xfd; xfd; x02; x10; xff; xff]) / 256)]).
Proof.
  assert (byte_sum (drop 2 [xfd; xfd; x02; x10; xff; xff]) < 65536)%N as H
    by (vm_compute; reflexivity).
  exact (checksum_low_byte_first [xfd; xfd; x02; x10; xff; xff] H).
Defined.

Lemma verify_detects_changed_byte_witness :
  _verify_checksum
    (map token (([xfd; xfd; x02] ++ x11 :: [x30; x06]) ++ [x48; x00]))
  = Ok false.
Proof.
  assert (2 <= length [xfd; xfd; x02]) as H1 by (cbn; lia).
  assert (x10 <> x11) as H2 by discriminate.
  assert (byte_sum (drop 2 ([xfd; xfd; x02] ++ x10 :: [x30; x06])) < 65536)%N
    as H3 by (vm_compute; reflexivity).
  assert (byte_sum (drop 2 ([xfd; xfd; x02] ++ x11 :: [x30; x06])) < 65536)%N
    as H4 by (vm_compute; reflexivity).
  assert (_checksum (hexU ([xfd; xfd; x02] ++ x10 :: [x30; x06]))
          = Ok (hexU [x48; x00])) as H5 by (vm_compute; reflexivity).
  exact (verify_detects_changed_byte [xfd; xfd; x02] [x30; x06] x10 x11
           x48 x00 H1 H2 H3 H4 H5).
Defined.

Lemma verify_checksum_short_witness :
  _verify_checksum ["FD"] = Err IndexError.
Proof.
  assert (length ["FD"] < 2) as H by (cbn; lia).
  exact (verify_checksum_short ["FD"] H).
Defined.

Lemma send_command_returns_verified_witness :
  _verify_checksum (decode Sample.status_datagram) = Ok true /\
  length (decode Sample.status_datagram) <= 256.
Proof.
  assert (_send_command Sample.api_16 FUNC_READ "B9010225B707"
            Sample.world_status
          = (Ok (decode Sample.status_datagram),
             snd (_send_command Sample.api_16 FUNC_READ "B9010225B707"
                    Sample.world_status))) as H by (vm_compute; reflexivity).
  pose proof (send_command_returns_verified _ _ _ _ _ _ H) as (Hv & Hl & _).
  exact (conj Hv Hl).
Defined.

Lemma send_command_short_datagram_witness :
  exists wire,
    _send_command Sample.api_16 FUNC_READ "B9010225B707" Sample.world_short
    = (Err IndexError,
       World [] [((host Sample.api_16, port Sample.api_16), wire)]).
Proof.
  destruct (encode Sample.api_16 FUNC_READ "B9010225B707") as [wire|] eqn:He;
    [|vm_compute in He; discriminate].
  assert (inbox Sample.world_short = Ok [xfd] :: []) as Hin by reflexivity.
  assert (length [xfd] < 2) as Hd by (cbn; lia).
  exists wire.
  exact (send_command_short_datagram Sample.api_16 _ _ wire [xfd] []
           Sample.world_short He Hin Hd).
Defined.

Lemma send_command_single_attempt_witness :
  exists wire,
    encode Sample.api_16 FUNC_READ "B9010225B707" = Ok wire /\
    _send_command Sample.api_16 FUNC_READ "B9010225B707" Sample.world_refused
    = (Err gaierror, World [] []) /\
    _send_command Sample.api_16 FUNC_READ "B9010225B707" Sample.world0
    = (Err socket_error,
       World [] [((host Sample.api_16, port Sample.api_16), wire)]) /\
    _send_command Sample.api_16 FUNC_READ "B9010225B707" Sample.world_corrupt
    = (Err (Exception_ "Checksum error"),
       World [] [((host Sample.api_16, port Sample.api_16), wire)]).
Proof.
  destruct (encode Sample.api_16 FUNC_READ "B9010225B707") as [wire|] eqn:He;
    [|vm_compute in He; discriminate].
  exists wire. split; [reflexivity|]. split; [|split].
  - exact (proj1 (send_command_single_attempt Sample.api_16 _ _ wire
                    Sample.world_refused He) gaierror [] eq_refl eq_refl).
  - exact (proj1 (proj2 (send_command_single_attempt Sample.api_16 _ _ wire
                           Sample.world0 He)) eq_refl).
  - assert (_verify_checksum
              (decode (take 256
                 (response_bytes (repeat x30 16) (repeat x31 4)
                    Sample.status_fields xdd x06))) = Ok false) as Hv
      by (vm_compute; reflexivity).
    exact (proj1 (proj2 (proj2 (send_command_single_attempt Sample.api_16 _ _
                                  wire Sample.world_corrupt He)))
             _ [] eq_refl Hv).
Defined.

Lemma long_password_is_not_sent_witness :
  _send_command Sample.api_long_password (token x01) (hexU [x01; x02])
    Sample.world_status
  = (Err (ValueError "non-hexadecimal number found in fromhex() arg"),
     Sample.world_status).
Proof.
  assert (Py.encode_utf8 (idnum Sample.api_long_password) = Ok (repeat x30 16))
    as H1 by reflexivity.
  assert (Py.encode_utf8 (password Sample.api_long_password)
          = Ok (repeat x41 256)) as H2 by (vm_compute; reflexivity).
  assert (256 <= length (password Sample.api_long_password) < 4096) as H3
    by (vm_compute; lia).
  exact (long_password_is_not_sent Sample.api_long_password x01 [x01; x02]
           _ _ Sample.world_status H1 H2 H3).
Defined.

Lemma parse_last_field_wins_witness :
  exists m,
    _parse_response ("FD" :: "FD" :: "02" :: "10" :: repeat "30" 16
                     ++ "04" :: repeat "31" 4
                     ++ FUNC_RESULT
                     :: (map token Sample.status_fields ++ ["02"; "01"])
                     ++ ["E0"; "05"]) = Ok m /\
    m !! "02" = Some "01" /\
    (forall k, k <> "02" -> m !! k = Sample.status_map !! k).
Proof.
  exact (parse_last_field_wins "10" "04" "02" "01"
           (repeat "30" 16) (repeat "31" 4) _ ["E0"; "05"] _
           eq_refl eq_refl sample_status_fields
           ltac:(discriminate) ltac:(discriminate) ltac:(discriminate)
           ltac:(discriminate) eq_refl).
Defined.

Lemma parse_unsupported_marker_witness :
  _parse_response ("FD" :: "FD" :: "02" :: "10" :: repeat "30" 16
                   ++ "04" :: repeat "31" 4
                   ++ FUNC_RESULT :: map token Sample.status_fields
                   ++ RETURN_CHANGE_FUNC :: ["01"] ++ ["DA"; "06"])
  = Err (Exception_ "special function, change base function not implemented").
Proof.
  exact (proj1 (parse_unsupported_marker "10" "04"
                  (repeat "30" 16) (repeat "31" 4) _ ["01"] ["DA"; "06"] _
                  eq_refl eq_refl sample_status_fields eq_refl)).
Defined.

Lemma parse_response_errors_witness :
  parser_error IndexError.
Proof.
  assert (_parse_response (decode [xfd; xfd; x02; x10; x30; x30])
          = Err IndexError) as H by (vm_compute; reflexivity).
  exact (parse_response_errors _ _ H).
Defined.

Lemma parse_response_no_IndexError_after_header_witness :
  _parse_response
    (decode (response_bytes (repeat x30 16) (repeat x31 4)
               [xfe; x04; x25; x11] x18 x05)) <> Err IndexError.
Proof.
  assert (parse_header
            (decode (response_bytes (repeat x30 16) (repeat x31 4)
                       [xfe; x04; x25; x11] x18 x05)) = Ok 25) as H1
    by (vm_compute; reflexivity).
  assert (Py.index
            (decode (response_bytes (repeat x30 16) (repeat x31 4)
                       [xfe; x04; x25; x11] x18 x05)) 25 = Ok "06") as H2
    by (vm_compute; reflexivity).
  exact (parse_response_no_IndexError_after_header _ _ _ H1 H2).
Defined.

Lemma own_request_is_rejected_witness :
  exists wire,
    encode Sample.api_16 (token x01) (hexU [xb9; x01; x02; x25; xb7; x07])
    = Ok wire /\
    _verify_checksum (decode wire) = Ok true /\
    _parse_response (decode wire) = Err (Exception_ "Invalid result function").
Proof.
  assert (Py.encode_utf8 (idnum Sample.api_16) = Ok (repeat x30 16)) as H1
    by reflexivity.
  assert (length (repeat x30 16) = 16) as H2 by reflexivity.
  assert (Forall (fun c => (c < 128)%N) (password Sample.api_16)) as H3
    by (repeat constructor).
  assert (length (password Sample.api_16) <= 255) as H4 by (vm_compute; lia).
  assert (x01 <> x06) as H5 by discriminate.
  exact (own_request_is_rejected Sample.api_16 x01
           [xb9; x01; x02; x25; xb7; x07] _ H1 H2 H3 H4 H5).
Defined.

Lemma password_size_counts_characters_witness :
  (login ← _login_packet Sample.api_accent; Py.fromhex login)
  = Ok ([xfd; xfd; x02; x10] ++ repeat x30 16
        ++ [Py.byte_of_N (N.of_nat (length (password Sample.api_accent)))]
        ++ [x70; xc3; xa9]) /\
  length (password Sample.api_accent) < length [x70; xc3; xa9].
Proof.
  assert (Py.encode_utf8 (idnum Sample.api_accent) = Ok (repeat x30 16)) as H1
    by reflexivity.
  assert (Py.encode_utf8 (password Sample.api_accent) = Ok [x70; xc3; xa9])
    as H2 by reflexivity.
  assert (length (password Sample.api_accent) <= 255) as H3 by (cbn; lia).
  assert (Exists (fun c => (128 <= c)%N) (password Sample.api_accent)) as H4
    by (apply Exists_cons_tl, Exists_cons_hd; lia).
  exact (password_size_counts_characters Sample.api_accent _ _ H1 H2 H3 H4).
Defined.


Lemma translate_direction_witness :
  exists r,
    _translate_response Sample.DIRECTION_ALTERNATING Sample.DIRECTIONS
      Sample.PRESET_MODE_AUTO Sample.PRESET_MODE_PARTY
      Sample.PRESET_MODE_SLEEP Sample.status_map = Ok r /\
    (st_oscillating r = true <->
     st_direction r = None \/
     st_direction r = Some Sample.DIRECTION_ALTERNATING).
Proof.
  destruct (_translate_response Sample.DIRECTION_ALTERNATING Sample.DIRECTIONS
              Sample.PRESET_MODE_AUTO Sample.PRESET_MODE_PARTY
              Sample.PRESET_MODE_SLEEP Sample.status_map) as [r|] eqn:H;
    [|vm_compute in H; discriminate].
  exists r. split; [reflexivity|].
  exact (proj1 (translate_direction _ _ _ _ _ _ _ H)).
Defined.

Lemma status_of_response_witness :
  exists wire,
    status Sample.DIRECTION_ALTERNATING Sample.DIRECTIONS
      Sample.PRESET_MODE_AUTO Sample.PRESET_MODE_PARTY Sample.PRESET_MODE_SLEEP
      Sample.api_16 Sample.world_status
    = (_translate_response Sample.DIRECTION_ALTERNATING Sample.DIRECTIONS
         Sample.PRESET_MODE_AUTO Sample.PRESET_MODE_PARTY
         Sample.PRESET_MODE_SLEEP Sample.status_map,
       World [] (((host Sample.api_16, port Sample.api_16), wire)
                 :: sent Sample.world_status)).
Proof.
  destruct (encode Sample.api_16 FUNC_READ "B9010225B707") as [wire|] eqn:He;
    [|vm_compute in He; discriminate].
  assert (length Sample.status_datagram <= 256) as Hl by (vm_compute; lia).
  exists wire.
  exact (status_of_response _ _ _ _ _ Sample.api_16 wire
           (repeat x30 16) (repeat x31 4) Sample.status_fields xdd x05
           Sample.status_map [] Sample.world_status
           He eq_refl Hl sample_status_checksum sample_status_fields).
Defined.

Lemma humidity_of_response_witness :
  exists wire,
    humidity Sample.api_16 Sample.world_status
    = (Ok (Sample.status_map !! COMMAND_CURRENT_HUMIDITY),
       World [] (((host Sample.api_16, port Sample.api_16), wire)
                 :: sent Sample.world_status)).
Proof.
  destruct (encode Sample.api_16 FUNC_READ "25") as [wire|] eqn:He;
    [|vm_compute in He; discriminate].
  assert (length Sample.status_datagram <= 256) as Hl by (vm_compute; lia).
  exists wire.
  exact (humidity_of_response Sample.api_16 wire
           (repeat x30 16) (repeat x31 4) Sample.status_fields xdd x05
           Sample.status_map [] Sample.world_status
           He eq_refl Hl sample_status_checksum sample_status_fields).
Defined.

Lemma write_commands_return_fresh_status_witness :
  exists data wire1 wire2,
    encode Sample.api_16 FUNC_READ_WRITE data = Ok wire1 /\
    encode Sample.api_16 FUNC_READ "B9010225B707" = Ok wire2 /\
    sleep Sample.DIRECTION_ALTERNATING Sample.DIRECTIONS
      Sample.PRESET_MODE_AUTO Sample.PRESET_MODE_PARTY Sample.PRESET_MODE_SLEEP
      Sample.api_16 Sample.world_write
    = (_translate_response Sample.DIRECTION_ALTERNATING Sample.DIRECTIONS
         Sample.PRESET_MODE_AUTO Sample.PRESET_MODE_PARTY
         Sample.PRESET_MODE_SLEEP Sample.status_map,
       World [] (((host Sample.api_16, port Sample.api_16), wire2)
                 :: ((host Sample.api_16, port Sample.api_16), wire1)
                 :: sent Sample.world_write)).
Proof.
  assert (Py.encode_utf8 (idnum Sample.api_16) = Ok (repeat x30 16)) as H1
    by reflexivity.
  assert (Py.encode_utf8 (password Sample.api_16) = Ok (repeat x31 4)) as H2
    by reflexivity.
  assert (length (password Sample.api_16) <= 255) as H3 by (vm_compute; lia).
  assert (_verify_checksum (decode (take 256 Sample.status_datagram)) = Ok true)
    as H4 by (vm_compute; reflexivity).
  assert (length Sample.status_datagram <= 256) as H5 by (vm_compute; lia).
  exact (write_commands_return_fresh_status
           Sample.DIRECTION_ALTERNATING Sample.DIRECTIONS
           Sample.PRESET_MODE_AUTO Sample.PRESET_MODE_PARTY
           Sample.PRESET_MODE_SLEEP _ Sample.api_16 _ _
           Sample.status_datagram (repeat x30 16) (repeat x31 4)
           Sample.status_fields xdd x05 Sample.status_map [] Sample.world_write
           (or_intror (or_intror (or_introl eq_refl)))
           H1 H2 H3 eq_refl H4 H5 sample_status_checksum sample_status_fields).
Defined.


Lemma direction_name_or_code_witness :
  direction Sample.DIRECTION_ALTERNATING Sample.DIRECTIONS
    Sample.PRESET_MODE_AUTO Sample.PRESET_MODE_PARTY Sample.PRESET_MODE_SLEEP
    Sample.api_16 "reverse" Sample.world_write
  = direction Sample.DIRECTION_ALTERNATING Sample.DIRECTIONS
      Sample.PRESET_MODE_AUTO Sample.PRESET_MODE_PARTY Sample.PRESET_MODE_SLEEP
      Sample.api_16 "01" Sample.world_write.
Proof.
  assert (NoDup (Py.values Sample.DIRECTIONS)) as H1
    by (apply (bool_decide_unpack _); vm_compute; exact I).
  assert (("01", "reverse") ∈ Sample.DIRECTIONS) as H2
    by (apply (bool_decide_unpack _); vm_compute; exact I).
  assert ("01" ∉ Py.values Sample.DIRECTIONS) as H3
    by (apply (bool_decide_unpack _); vm_compute; exact I).
  exact (direction_name_or_code Sample.DIRECTION_ALTERNATING Sample.DIRECTIONS
           Sample.PRESET_MODE_AUTO Sample.PRESET_MODE_PARTY
           Sample.PRESET_MODE_SLEEP Sample.api_16 "01" "reverse"
           Sample.world_write H1 H2 H3).
Defined.
